(** * submit-service: the sample endpoint (app.js) and the download
      endpoint (download.js), embedded and checked against their
      specification.

    Conventions of the embedding.
    - A JavaScript string is a [string]; [undefined] is [None].
    - A JavaScript object whose property order matters (a CSV record, the
      [properties] of a GeoJSON feature) is an association list in the
      order the engine enumerates its own properties.
    - An Express middleware [(req, res, next) => ...] is a function that
      takes the continuation [next] and the request/response state: a
      middleware may call [next] once, several times or never, exactly as
      the JavaScript does.
    - What a remote server answers is an input of the model: for a
      streamed body, the sequence of records the attached decoder emits
      and the way the stream ends. *)

From Stdlib Require Import ZArith List String Ascii Bool Lia Arith.
From Stdlib Require Import Numbers.DecimalString.
From Stdlib Require Import Floats.SpecFloat.
Import ListNotations.

Open Scope string_scope.
Open Scope list_scope.

(* ===================================================================== *)
(** ** JavaScript and lodash primitives used by both files *)
(* ===================================================================== *)

Module Js.

(** [`${x}`] for a value that may be [undefined]. *)
Definition tmpl (o : option string) : string :=
  match o with
  | Some s => s
  | None => "undefined"
  end.

(** [`${n}`] for an integer (a status code). *)
Definition tmplZ (z : Z) : string := NilZero.string_of_int (Z.to_int z).

Definition tmplOptZ (o : option Z) : string :=
  match o with
  | Some z => tmplZ z
  | None => "undefined"
  end.

(** [!s] for a value that is a string or [undefined]. *)
Definition falsy (o : option string) : bool :=
  match o with
  | None => true
  | Some s => (s =? "")
  end.

(** [a === b] on values that are strings or [undefined]. *)
Definition strict_eq (a b : option string) : bool :=
  match a, b with
  | None, None => true
  | Some x, Some y => (x =? y)
  | _, _ => false
  end.

(** [_.endsWith(string, target)]: with [position = string.length],
    [position -= target.length; return position >= 0 &&
     string.slice(position, end) == target]. *)
Definition endsWith (s target : string) : bool :=
  let len := String.length s in
  let k := String.length target in
  (k <=? len)%nat && (substring (len - k) k s =? target).

(** [_.startsWith(string, target)]. *)
Definition startsWith (s target : string) : bool := prefix target s.

(** A JavaScript object with string values (a CSV record) or scalar
    values, as the ordered list of its own enumerable properties. *)
Definition obj (V : Type) : Type := list (string * V).

(** [o[k]]. *)
Fixpoint get {V} (k : string) (o : obj V) : option V :=
  match o with
  | [] => None
  | (k', v) :: rest => if k' =? k then Some v else get k rest
  end.

(** [o[k] = v]: an existing property keeps its place, a new one is
    appended. *)
Fixpoint set {V} (k : string) (v : V) (o : obj V) : obj V :=
  match o with
  | [] => [(k, v)]
  | (k', v') :: rest =>
      if k' =? k then (k', v) :: rest else (k', v') :: set k v rest
  end.

(** [_.keys(o)]. *)
Definition keys {V} (o : obj V) : list string := map fst o.

(** [_.omit(o, paths)]: a copy without the listed properties. *)
Definition omit {V} (o : obj V) (paths : list string) : obj V :=
  filter (fun kv => negb (existsb (String.eqb (fst kv)) paths)) o.

End Js.

(* ===================================================================== *)
(** ** The HTTP response, shared by both endpoints *)
(* ===================================================================== *)

(** Scalar values held by a record. *)
Inductive scalar : Type :=
| SStr (s : string)
| SNum (x : spec_float)
| SNull.

(** One row of a CSV file or the [properties] of one GeoJSON feature. *)
Definition record : Type := Js.obj scalar.

(** The object [output] sends: [undefined] properties are left out by the
    JSON serialisation, hence the options. *)
Record sample_json : Type := mkSampleJson {
  sj_type : option string;
  sj_compression : option string;
  sj_data : option string;
  sj_fields : option (list string);
  sj_results : option (list (option record));
  sj_conform_type : option string
}.

Inductive body : Type :=
| Text (s : string)
| Sample (j : sample_json).

Record response : Type := mkResponse {
  status : Z;
  content : body
}.

(* ===================================================================== *)
(** ** Streams: the stream libraries as drivers of the source's callbacks *)
(* ===================================================================== *)

Module Streams.

(** One decoded element: a CSV row, or the [properties] of a GeoJSON
    feature ([None] when the feature has [properties: null] or none). *)
Definition item : Type := option record.

(** [_.keys(x)] on an item: lodash returns [[]] for [null]/[undefined]. *)
Definition keys_of (x : item) : list string :=
  match x with
  | Some r => Js.keys r
  | None => []
  end.

(** A JavaScript error object, through the properties the handlers
    read: [err.code], [err.statusCode], [err.body], and its rendering
    [`${err}`]. *)
Record error : Type := mkError {
  code : option string;
  statusCode : option Z;
  body_text : option string;
  rendered : string
}.

(** How a decoded stream ends: at the end of its input, or with an
    error. *)
Inductive ending : Type :=
| Ends
| Fails (err : error).

(** What a through2 transform did with the chunk it was given. *)
Inductive verdict : Type :=
| Callback
| Destroy.

Section Drivers.
Context {S I : Type}.

(** [src.pipe(csvParse(..)).on('error', on_error)
       .pipe(through2.obj(transform))
       .on('close', on_close).on('finish', on_finish)]:
    rows are handed to [transform] one at a time while it answers
    [callback()]; after [this.destroy()] nothing more is delivered and
    ['close'] fires; at the end of the input ['finish'] fires; a parse
    error goes to the ['error'] listener of the parser and the transform
    never finishes. *)
Fixpoint pipe_through2 (transform : I -> S -> S * verdict)
    (on_close on_finish : S -> S) (on_error : error -> S -> S)
    (rows : list I) (fin : ending) (s : S) : S :=
  match rows with
  | [] =>
      match fin with
      | Ends => on_finish s
      | Fails err => on_error err s
      end
  | r :: rest =>
      match transform r s with
      | (s1, Callback) =>
          pipe_through2 transform on_close on_finish on_error rest fin s1
      | (s1, Destroy) => on_close s1
      end
  end.

(** [oboe(src).node('features[*]', node_any).node('features[9]', node_9)
       .fail(fail).done(done)]:
    for the feature of index [i] the listeners fire in the order they
    were registered; [node_9] aborts the parse, so nothing is delivered
    after it and [done] is not called. *)
Fixpoint oboe (node_any : I -> S -> S) (node_9 : S -> S)
    (fail : error -> S -> S) (done : S -> S)
    (i : nat) (features : list I) (fin : ending) (s : S) : S :=
  match features with
  | [] =>
      match fin with
      | Ends => done s
      | Fails err => fail err s
      end
  | f :: rest =>
      let s1 := node_any f s in
      if (i =? 9)%nat then node_9 s1
      else oboe node_any node_9 fail done (Datatypes.S i) rest fin s1
  end.

End Drivers.

End Streams.

(* ===================================================================== *)
(** ** app.js: the sample endpoint, GET /fields *)
(* ===================================================================== *)

Module App.
Import Streams.

(** [req.query]: the parsed query string, which the middlewares also use
    as their scratch object.  [fields] and [results] hold what the
    samplers store there. *)
Record query : Type := mkQuery {
  source : option string;
  protocol : option string;
  type : option string;
  compression : option string;
  fields : option (list string);
  results : option (list item)
}.

Definition set_protocol (v : string) (q : query) : query :=
  mkQuery (source q) (Some v) (type q) (compression q) (fields q) (results q).
Definition set_type (v : string) (q : query) : query :=
  mkQuery (source q) (protocol q) (Some v) (compression q) (fields q) (results q).
Definition set_compression (v : string) (q : query) : query :=
  mkQuery (source q) (protocol q) (type q) (Some v) (fields q) (results q).
Definition set_fields (v : list string) (q : query) : query :=
  mkQuery (source q) (protocol q) (type q) (compression q) (Some v) (results q).
Definition set_results (v : list item) (q : query) : query :=
  mkQuery (source q) (protocol q) (type q) (compression q) (fields q) (Some v).

(** [req.query.results.push(x)]; [results] is an array wherever the
    source pushes, for it is assigned [[]] just before. *)
Definition push_result (x : item) (q : query) : query :=
  match results q with
  | Some l => set_results (l ++ [x]) q
  | None => q
  end.

(** The request/response pair as the middlewares see it. *)
Record ctx : Type := mkCtx {
  req_query : query;
  res : option response;      (* the response sent, once headers are sent *)
  late : nat;                 (* sends attempted after the response was sent *)
  uncaught : nat;             (* errors nobody handles: a thrown TypeError,
                                 an 'error' event without listener *)
  decoded : list string;      (* zip entries piped into a decoder *)
  drained : list string       (* zip entries disposed of by autodrain() *)
}.

Definition request (q : query) : ctx := mkCtx q None 0 0 [] [].

Definition with_query (f : query -> query) (c : ctx) : ctx :=
  mkCtx (f (req_query c)) (res c) (late c) (uncaught c) (decoded c) (drained c).

(** [res.status(s).type(..).send(b)]: only the first send reaches the
    caller; a later one throws because the headers are already sent. *)
Definition send (s : Z) (b : body) (c : ctx) : ctx :=
  match res c with
  | None =>
      mkCtx (req_query c) (Some (mkResponse s b)) (late c) (uncaught c)
            (decoded c) (drained c)
  | Some _ =>
      mkCtx (req_query c) (res c) (Datatypes.S (late c)) (uncaught c)
            (decoded c) (drained c)
  end.

Definition throw (c : ctx) : ctx :=
  mkCtx (req_query c) (res c) (late c) (Datatypes.S (uncaught c))
        (decoded c) (drained c).

Definition log_decoded (p : string) (c : ctx) : ctx :=
  mkCtx (req_query c) (res c) (late c) (uncaught c) (decoded c ++ [p]) (drained c).

Definition log_drained (p : string) (c : ctx) : ctx :=
  mkCtx (req_query c) (res c) (late c) (uncaught c) (decoded c) (drained c ++ [p]).

(** A middleware, given its [next]. *)
Definition middleware : Type := (ctx -> ctx) -> ctx -> ctx.

(** *** arcgisRegexp = /(Map|Feature)Server\/\d+\/?$/ *)

Definition is_digit (c : ascii) : bool :=
  (48 <=? nat_of_ascii c)%nat && (nat_of_ascii c <=? 57)%nat.

(** [\d*\/?$] *)
Fixpoint digits_slash_end (s : string) : bool :=
  match s with
  | EmptyString => true
  | String c rest =>
      if is_digit c then digits_slash_end rest
      else Ascii.eqb c "/" && (rest =? "")
  end.

(** [\d+\/?$] *)
Definition digits1_slash_end (s : string) : bool :=
  match s with
  | EmptyString => false
  | String c rest => is_digit c && digits_slash_end rest
  end.

(** [s] starts with [p]: what follows [p]. *)
Fixpoint after_prefix (p s : string) : option string :=
  match p, s with
  | EmptyString, _ => Some s
  | String a p', String b s' => if Ascii.eqb a b then after_prefix p' s' else None
  | String _ _, EmptyString => None
  end.

(** The whole pattern, anchored where [s] starts. *)
Definition match_here (s : string) : bool :=
  match after_prefix "MapServer/" s with
  | Some r => digits1_slash_end r
  | None =>
      match after_prefix "FeatureServer/" s with
      | Some r => digits1_slash_end r
      | None => false
      end
  end.

(** [arcgisRegexp.test(s)]: the pattern is tried at every position. *)
Fixpoint arcgisRegexp_test (s : string) : bool :=
  match_here s ||
  match s with
  | EmptyString => false
  | String _ rest => arcgisRegexp_test rest
  end.

(** *** The middlewares *)

Definition preconditionsCheck : middleware := fun next c =>
  if Js.falsy (source (req_query c))
  then send 400 (Text "'source' parameter is required") c
  else next c.

(** The assignments of [determineType], before its 400-or-next test. *)
Definition determineType_assign (q : query) : query :=
  (* preconditionsCheck lets no undefined source through; one would match
     no rule, whether read as the regexp or as lodash reads it *)
  let src := Js.tmpl (source q) in
  if arcgisRegexp_test src then set_type "geojson" (set_protocol "ESRI" q)
  else if Js.endsWith src ".geojson" then set_type "geojson" (set_protocol "http" q)
  else if Js.endsWith src ".csv" then set_type "csv" (set_protocol "http" q)
  else if Js.endsWith src ".zip" then set_compression "zip" (set_protocol "http" q)
  else set_protocol "unknown" q.

Definition determineType : middleware := fun next c =>
  let c1 := with_query determineType_assign c in
  if Js.strict_eq (protocol (req_query c1)) (Some "unknown")
  then send 400 (Text "Unsupported type") c1
  else next c1.

(** [typecheck(protocol, type, compression)]: [next()] when the three
    match, [next('route')] otherwise. *)
Definition typecheck_test (p t z : option string) (q : query) : bool :=
  Js.strict_eq (protocol q) p && Js.strict_eq (type q) t
  && Js.strict_eq (compression q) z.

Definition typecheck (p t z : option string) (next next_route : ctx -> ctx)
    (c : ctx) : ctx :=
  if typecheck_test p t z (req_query c) then next c else next_route c.

(** *** What the remote source answers *)

(** The reply to the ArcGIS query. [ArcgisError]: the request fails, the
    callback gets [err] and no [response]. In [ArcgisReply], [text] is
    the body as [`${body}`] renders it and [layer] the names of
    [body.fields] and the [attributes] of [body.features], when the body
    has them. *)
Inductive arcgis_remote : Type :=
| ArcgisError
| ArcgisReply (status_code : Z) (text : string)
    (layer : option (list string * list record)).

(** A GeoJSON source as oboe reports it: the [properties] of the elements
    of [features] in order, then [done] or [fail]. *)
Record geojson_remote : Type := mkGeojson {
  g_features : list item;
  g_end : ending
}.

(** A CSV source as [request] and csv-parse report it: an ['error'] event
    with its [code] and no response, or a response with its status, its
    body read as text and the rows the parser emits from it. *)
Inductive csv_remote : Type :=
| CsvError (err : error)
| CsvResponse (status_code : Z) (text : string) (rows : list item) (fin : ending).

(** One entry of a zip archive: its name, and what the decoder the code
    attaches to it emits. *)
Record zip_entry : Type := mkEntry {
  path : string;
  e_items : list item;
  e_end : ending
}.

(** A zip source: the stream or the archive is broken (an ['error']
    event), or the entries the parser emits, in the order of the
    archive. *)
Inductive zip_remote : Type :=
| ZipError
| ZipEntries (entries : list zip_entry).

(** How the source of the request behaves under each sampler. *)
Record world : Type := mkWorld {
  arcgis : arcgis_remote;
  geojson : geojson_remote;
  csv : csv_remote;
  zip : zip_remote
}.

(** *** The samplers *)

Definition sampleArcgis (w : world) : middleware := fun next c =>
  let src := Js.tmpl (source (req_query c)) in
  match arcgis w with
  | ArcgisError => throw c      (* response is undefined: response.statusCode throws *)
  | ArcgisReply sc text layer =>
      if negb (sc =? 200)%Z then
        send 400 (Text ("Error connecting to Arcgis server " ++ src
                        ++ ": " ++ text ++ " (" ++ Js.tmplZ sc ++ ")")) c
      else
        match layer with
        | None => throw c       (* response.body.fields is undefined *)
        | Some (names, attributes) =>
            next (with_query (fun q => set_results (map Some attributes)
                                         (set_fields names q)) c)
        end
  end.

(** The listener of ['features[*]'], in sampleGeojson and sampleZip. *)
Definition node_feature (x : item) (c : ctx) : ctx :=
  with_query (fun q => push_result x (set_fields (keys_of x) q)) c.

(** The listener of [.fail] in sampleGeojson. *)
Definition geojson_fail (err : error) (c : ctx) : ctx :=
  send 400 (Text ("Error retrieving file " ++ Js.tmpl (source (req_query c))
                  ++ ": " ++ Js.tmpl (body_text err)
                  ++ " (" ++ Js.tmplOptZ (statusCode err) ++ ")")) c.

Definition sampleGeojson (w : world) : middleware := fun next c =>
  let c0 := with_query (set_results []) c in
  oboe node_feature
       (fun c1 => next c1)          (* this.abort(); next() *)
       geojson_fail
       (fun c1 => next c1)          (* done *)
       0 (g_features (geojson w)) (g_end (geojson w)) c0.

(** The through2 transform of sampleCsv and sampleZip. *)
Definition sample_transform (x : item) (c : ctx) : ctx * verdict :=
  match results (req_query c) with
  | Some l =>
      if (List.length l <? 10)%nat
      then (with_query (fun q => push_result x (set_fields (keys_of x) q)) c,
            Callback)
      else (c, Destroy)
  | None => (throw c, Destroy)  (* results.length of undefined: not reached *)
  end.

(** An ['error'] event on a stream that has no listener for it. *)
Definition unhandled (_ : error) (c : ctx) : ctx := throw c.

Definition sampleCsv (w : world) : middleware := fun next c =>
  let src := Js.tmpl (source (req_query c)) in
  match csv w with
  | CsvError err =>
      send 400 (Text ("Error retrieving file " ++ src ++ ": "
                      ++ Js.tmpl (code err))) c
  | CsvResponse sc text rows fin =>
      if negb (sc =? 200)%Z then
        send 400 (Text ("Error retrieving file " ++ src ++ ": " ++ text
                        ++ " (" ++ Js.tmplZ sc ++ ")")) c
      else
        pipe_through2 sample_transform
          (fun c1 => next c1)       (* 'close' *)
          (fun c1 => next c1)       (* 'finish' *)
          unhandled
          rows fin (with_query (set_results []) c)
  end.

(** The ['entry'] listener of sampleZip. *)
Definition on_entry (next : ctx -> ctx) (c : ctx) (entry : zip_entry) : ctx :=
  if Js.endsWith (path entry) ".csv" then
    pipe_through2 sample_transform
      (fun c1 => next c1) (fun c1 => next c1) unhandled
      (e_items entry) (e_end entry)
      (log_decoded (path entry)
         (with_query (fun q => set_results [] (set_type "csv" q)) c))
  else if Js.endsWith (path entry) ".geojson" then
    oboe node_feature
      (fun c1 => next c1)
      (fun _ c1 => c1)              (* no .fail listener *)
      (fun c1 => next c1)
      0 (e_items entry) (e_end entry)
      (log_decoded (path entry)
         (with_query (fun q => set_results [] (set_type "geojson" q)) c))
  else
    log_drained (path entry) c.

(** The ['finish'] listener of sampleZip. *)
Definition on_zip_finish (c : ctx) : ctx :=
  if Js.falsy (type (req_query c))
  then send 400 (Text "Could not determine type from zip file") c
  else c.

(** Entries are handled one after the other, each to the end of its
    stream before the next ['entry'] event. *)
Definition sampleZip (w : world) : middleware := fun next c =>
  match zip w with
  | ZipError => throw c           (* no 'error' listener on the request or the parser *)
  | ZipEntries entries => on_zip_finish (fold_left (on_entry next) entries c)
  end.

Definition output : middleware := fun next c =>
  let q := req_query c in
  next (send 200 (Sample (mkSampleJson (protocol q) (compression q) (source q)
                            (fields q) (results q) (type q))) c).

(** *** module.exports: the routers and the route of GET /fields *)

(** [router.get('/fields', typecheck(..), sampler)] used as a handler:
    leaving the route, by [next('route')] or by the sampler's [next()],
    leaves the router. *)
Definition arcgisRouter (w : world) : middleware := fun next =>
  typecheck (Some "ESRI") (Some "geojson") None (sampleArcgis w next) next.
Definition geojsonRouter (w : world) : middleware := fun next =>
  typecheck (Some "http") (Some "geojson") None (sampleGeojson w next) next.
Definition csvRouter (w : world) : middleware := fun next =>
  typecheck (Some "http") (Some "csv") None (sampleCsv w next) next.
Definition zipRouter (w : world) : middleware := fun next =>
  typecheck (Some "http") None (Some "zip") (sampleZip w next) next.

(** [app.get('/fields', preconditionsCheck, determineType, arcgisRouter,
    geojsonRouter, csvRouter, zipRouter, output)]; nothing that follows
    [output] can change the response. *)
Definition get_fields (w : world) (c : ctx) : ctx :=
  preconditionsCheck
    (determineType
       (arcgisRouter w
          (geojsonRouter w
             (csvRouter w
                (zipRouter w
                   (output (fun c1 => c1))))))) c.

End App.

(* ===================================================================== *)
(** ** Numbers: parseFloat into binary64 *)
(* ===================================================================== *)

Module Number.

(** A JavaScript number is an IEEE 754 binary64 value: [spec_float] at
    precision 53 and maximal exponent 1024. *)
Definition prec : Z := 53.
Definition emax : Z := 1024.

Definition NaN : spec_float := S754_nan.

Definition isNaN (x : spec_float) : bool :=
  match x with
  | S754_nan => true
  | _ => false
  end.

(** White space that parseFloat skips, among the code units below 256. *)
Definition is_space (c : ascii) : bool :=
  let n := nat_of_ascii c in
  ((9 <=? n) && (n <=? 13) || (n =? 32) || (n =? 160))%nat.

Fixpoint trim_start (s : string) : string :=
  match s with
  | String c rest => if is_space c then trim_start rest else s
  | EmptyString => s
  end.

Definition digit_of (c : ascii) : option Z :=
  let n := nat_of_ascii c in
  if ((48 <=? n) && (n <=? 57))%nat then Some (Z.of_nat (n - 48)) else None.

(** Reads decimal digits: the value accumulated on [acc], how many were
    read, and what follows them. *)
Fixpoint read_digits (acc : Z) (count : nat) (s : string) : Z * nat * string :=
  match s with
  | String c rest =>
      match digit_of c with
      | Some d => read_digits (10 * acc + d) (S count) rest
      | None => (acc, count, s)
      end
  | EmptyString => (acc, count, s)
  end.

(** ExponentPart, read after the [e] or [E]: an optional sign and at
    least one digit; otherwise there is no exponent part. *)
Definition read_exponent (s : string) : Z :=
  let '(neg, r) :=
    match s with
    | String "-" r => (true, r)
    | String "+" r => (false, r)
    | _ => (false, s)
    end in
  let '(v, n, _) := read_digits 0 0 r in
  if (n =? 0)%nat then 0%Z else if neg then (- v)%Z else v.

(** The longest prefix of [s] that is a StrUnsignedDecimalLiteral other
    than [Infinity], as a mantissa [m >= 0] and a decimal exponent [e]:
    its mathematical value is [m * 10^e]. *)
Definition read_decimal (s : string) : option (Z * Z) :=
  let '(i, ni, r1) := read_digits 0 0 s in
  let '(m, nf, r2) :=
    match r1 with
    | String "." r => read_digits i 0 r
    | _ => (i, 0%nat, r1)
    end in
  if ((ni =? 0) && (nf =? 0))%nat then None
  else
    let ex :=
      match r2 with
      | String "e" r => read_exponent r
      | String "E" r => read_exponent r
      | _ => 0%Z
      end in
    Some (m, (ex - Z.of_nat nf)%Z).

(** The binary64 value nearest to [(-1)^sign * m * 10^e], ties to even. *)
Definition of_decimal (sign : bool) (m e : Z) : spec_float :=
  match (m * 10 ^ Z.max e 0)%Z with
  | Zpos num =>
      SFdiv prec emax (S754_finite sign num 0)
            (S754_finite false (Z.to_pos (10 ^ Z.max (- e) 0)) 0)
  | _ => S754_zero sign
  end.

Definition parse_unsigned (sign : bool) (s : string) : spec_float :=
  if prefix "Infinity" s then S754_infinity sign
  else
    match read_decimal s with
    | Some (m, e) => of_decimal sign m e
    | None => NaN
    end.

(** [parseFloat(x)] for [x] a string or [undefined]. *)
Definition parseFloat (x : option string) : spec_float :=
  match x with
  | None => NaN                 (* "undefined" has no numeric prefix *)
  | Some s =>
      match trim_start s with
      | String "-" r => parse_unsigned true r
      | String "+" r => parse_unsigned false r
      | r => parse_unsigned false r
      end
  end.

End Number.

(* ===================================================================== *)
(** ** download.js: the download endpoint *)
(* ===================================================================== *)

Module Download.
Import Streams.

(** A CSV record as csv-parse with [columns: true] makes it: every value
    is a string. *)
Definition row : Type := Js.obj string.

(** The object built by the first transform of respondWithGeojson. *)
Record geometry : Type := mkGeometry {
  geometry_type : string;
  coordinates : list spec_float
}.

Record point : Type := mkPoint {
  geometry_of : geometry;
  properties : row
}.

(** What is written to the response: a literal string, the
    serialisation [JSON.stringify(point)] of a point, or an error
    object [{error: {code, message}}]. *)
Inductive chunk : Type :=
| Raw (s : string)
| Stringify (p : point)
| ErrorObject (code : Z) (message : string).

(** The response object [res]. *)
Record res_t : Type := mkRes {
  status_code : Z;
  content_type : option string;
  disposition : option string;
  headersSent : bool;
  written : list chunk;
  ended : bool
}.

Definition fresh_res : res_t := mkRes 200 None None false [] false.

(** The function stored in [res.locals.outputHandler]. *)
Inductive handler : Type :=
| RespondWithCsv
| RespondWithGeojson.

(** One entry of the staged archive: its name, its bytes as text, and
    what csv-parse emits from them. *)
Record entry : Type := mkEntry {
  fileName : string;
  text : string;
  rows : list row;
  fin : ending
}.

(** [res.locals], the temporary files on disk, and the variables that
    the callbacks of getData close over. *)
Record ctx : Type := mkCtx {
  baseUrl : string;                       (* req.baseUrl *)
  format : option string;                 (* req.query.format *)
  temp : bool;                            (* res.locals.temp is set *)
  source : option string;                 (* res.locals.source *)
  datafile : option string;               (* res.locals.datafile *)
  outputHandler : option handler;         (* res.locals.outputHandler *)
  res : res_t;
  disk : list string;                     (* temporary files that exist *)
  uncaught : nat;                         (* errors nobody handles *)
  csvFileFound : bool;
  opening : list entry;                   (* openReadStream calls not yet called back *)
  flowing : list (handler * entry);       (* streams handed to a handler, not yet read *)
  handled : list string                   (* entries handed to the output handler *)
}.

Definition request (url : string) (fmt : option string) : ctx :=
  mkCtx url fmt false None None None fresh_res [] 0 false [] [] [].

Definition set_format (v : option string) (c : ctx) : ctx :=
  mkCtx (baseUrl c) v (temp c) (source c) (datafile c) (outputHandler c)
        (res c) (disk c) (uncaught c) (csvFileFound c) (opening c) (flowing c)
        (handled c).
Definition set_temp (c : ctx) : ctx :=
  mkCtx (baseUrl c) (format c) true (source c) (datafile c) (outputHandler c)
        (res c) (disk c) (uncaught c) (csvFileFound c) (opening c) (flowing c)
        (handled c).
Definition set_source (v : string) (c : ctx) : ctx :=
  mkCtx (baseUrl c) (format c) (temp c) (Some v) (datafile c) (outputHandler c)
        (res c) (disk c) (uncaught c) (csvFileFound c) (opening c) (flowing c)
        (handled c).
Definition set_datafile (v : option string) (c : ctx) : ctx :=
  mkCtx (baseUrl c) (format c) (temp c) (source c) v (outputHandler c)
        (res c) (disk c) (uncaught c) (csvFileFound c) (opening c) (flowing c)
        (handled c).
Definition set_outputHandler (v : option handler) (c : ctx) : ctx :=
  mkCtx (baseUrl c) (format c) (temp c) (source c) (datafile c) v
        (res c) (disk c) (uncaught c) (csvFileFound c) (opening c) (flowing c)
        (handled c).
Definition set_res (v : res_t) (c : ctx) : ctx :=
  mkCtx (baseUrl c) (format c) (temp c) (source c) (datafile c) (outputHandler c)
        v (disk c) (uncaught c) (csvFileFound c) (opening c) (flowing c)
        (handled c).
Definition set_disk (v : list string) (c : ctx) : ctx :=
  mkCtx (baseUrl c) (format c) (temp c) (source c) (datafile c) (outputHandler c)
        (res c) v (uncaught c) (csvFileFound c) (opening c) (flowing c)
        (handled c).
Definition throw (c : ctx) : ctx :=
  mkCtx (baseUrl c) (format c) (temp c) (source c) (datafile c) (outputHandler c)
        (res c) (disk c) (S (uncaught c)) (csvFileFound c) (opening c) (flowing c)
        (handled c).
Definition set_csvFileFound (v : bool) (c : ctx) : ctx :=
  mkCtx (baseUrl c) (format c) (temp c) (source c) (datafile c) (outputHandler c)
        (res c) (disk c) (uncaught c) v (opening c) (flowing c) (handled c).
Definition set_opening (v : list entry) (c : ctx) : ctx :=
  mkCtx (baseUrl c) (format c) (temp c) (source c) (datafile c) (outputHandler c)
        (res c) (disk c) (uncaught c) (csvFileFound c) v (flowing c) (handled c).
Definition set_flowing (v : list (handler * entry)) (c : ctx) : ctx :=
  mkCtx (baseUrl c) (format c) (temp c) (source c) (datafile c) (outputHandler c)
        (res c) (disk c) (uncaught c) (csvFileFound c) (opening c) v (handled c).
Definition log_handled (p : string) (c : ctx) : ctx :=
  mkCtx (baseUrl c) (format c) (temp c) (source c) (datafile c) (outputHandler c)
        (res c) (disk c) (uncaught c) (csvFileFound c) (opening c) (flowing c)
        (handled c ++ [p]).

Definition middleware : Type := (ctx -> ctx) -> ctx -> ctx.

(** *** The response object *)

(** [res.status(s).type(t).set('Content-Disposition', d)]: setting a
    header after the headers are sent throws. *)
Definition stage (s : Z) (t : string) (d : option string) (c : ctx) : option ctx :=
  if headersSent (res c) then None
  else Some (set_res (mkRes s (Some t) d false (written (res c)) (ended (res c))) c).

(** [res.write(x)]: the first write sends the headers. *)
Definition write (x : chunk) (c : ctx) : ctx :=
  let r := res c in
  if ended r then throw c
  else set_res (mkRes (status_code r) (content_type r) (disposition r) true
                      (written r ++ [x]) false) c.

(** [res.end()]. *)
Definition end_ (c : ctx) : ctx :=
  let r := res c in
  set_res (mkRes (status_code r) (content_type r) (disposition r) true
                 (written r) true) c.

(** [res.status(s).type(t).send(x)]. *)
Definition send (s : Z) (t : string) (x : chunk) (c : ctx) : ctx :=
  match stage s t (disposition (res c)) c with
  | None => throw c
  | Some c1 => end_ (write x c1)
  end.

Definition send_error (s : Z) (message : string) (c : ctx) : ctx :=
  send s "application/json" (ErrorObject s message) c.

(** *** What the outside answers *)

(** The reply to [request(url)]: an ['error'] event, or a response with
    its status, its [content-type] header, its body as text, and the body
    as the consumer of the 200 branch decodes it. *)
Inductive remote (A : Type) : Type :=
| RequestError (err : error)
| Response (sc : Z) (ctype : option string) (body : string) (decoded : A).
Arguments RequestError {A} err.
Arguments Response {A} sc ctype body decoded.

(** What yauzl and the event loop deliver for an open archive, in order:
    an ['entry'] event, the callback of the oldest pending
    [openReadStream], the delivery of the oldest stream handed to an
    output handler, the ['end'] event. *)
Inductive zip_event : Type :=
| EvEntry (e : entry)
| EvOpened
| EvFlow
| EvEnd.

(** The staged file as [yauzl.open] finds it. *)
Inductive archive : Type :=
| NotAZip (err : error)
| Zip (events : list zip_event).

Record world : Type := mkWorld {
  OPENADDRESSES_METADATA_FILE : option string;   (* process.env *)
  metadata : remote (list row * ending);
  data : remote archive;
  tmp_path : string                    (* the name temp gives the staged file *)
}.

(** *** Error helpers *)

Definition handleCatastrophicError (errorCode : option string) (file : string)
    (c : ctx) : ctx :=
  send_error 500 ("Error retrieving file " ++ file ++ ": " ++ Js.tmpl errorCode) c.

Definition responseIsPlainText (ctype : option string) : bool :=
  match ctype with
  | Some t => Js.startsWith t "text/plain"
  | None => false
  end.

Definition handlePlainTextNonCatastrophicError (msg : string) (sc : Z)
    (file : string) (c : ctx) : ctx :=
  send_error 500 ("Error retrieving file " ++ file ++ ": " ++ msg
                  ++ " (" ++ Js.tmplZ sc ++ ")") c.

(** [handleNonPlainTextNonCatastrophicError(statusCode, res)]; [res] is
    [undefined] when the caller passes one argument only, and
    [res.status] throws. *)
Definition handleNonPlainTextNonCatastrophicError (file statusCode : string)
    (res_given : bool) (c : ctx) : ctx :=
  if res_given
  then send_error 500 ("Error retrieving file " ++ file ++ ": (" ++ statusCode ++ ")") c
  else throw c.

(** *** The output handlers *)

(** [entry.pipe(res.status(200).type('text/csv').set(..)).on('finish',
    next)]: the headers are staged now, the bytes flow later. *)
Definition respondWithCsv (e : entry) (c : ctx) : ctx :=
  match stage 200 "text/csv" (Some "attachment; filename=data.csv") c with
  | None => throw c
  | Some c1 => set_flowing (flowing c1 ++ [(RespondWithCsv, e)]) c1
  end.

Definition csv_flow (next : ctx -> ctx) (e : entry) (c : ctx) : ctx :=
  next (end_ (write (Raw (text e)) c)).

(** The first transform of respondWithGeojson. *)
Definition to_point (record : row) : point :=
  mkPoint
    (mkGeometry "Point"
       [Number.parseFloat (Js.get "LON" record);
        Number.parseFloat (Js.get "LAT" record)])
    (Js.omit record ["LON"; "LAT"]).

(** The second transform of respondWithGeojson, with its counter. *)
Definition write_point (p : point) (st : ctx * nat) : ctx * nat :=
  let '(c, count) := st in
  let c1 := if (0 <? count)%nat then write (Raw ",") c else c in
  (write (Stringify p) c1, S count).

(** ['{"type":"FeatureCollection","features":['], with [dq] for the
    quotation mark. *)
Definition dq : string := String (ascii_of_nat 34) EmptyString.
Definition geojson_header : string :=
  "{" ++ dq ++ "type" ++ dq ++ ":" ++ dq ++ "FeatureCollection" ++ dq ++ ","
      ++ dq ++ "features" ++ dq ++ ":[".
Definition geojson_footer : string := "]}".

(** respondWithGeojson, up to the first write: the header goes out at
    once, the records flow later. *)
Definition respondWithGeojson (e : entry) (c : ctx) : ctx :=
  match stage 200 "application/json" (Some "attachment; filename=data.geojson") c with
  | None => throw c
  | Some c1 =>
      let c2 := write (Raw geojson_header) c1 in
      set_flowing (flowing c2 ++ [(RespondWithGeojson, e)]) c2
  end.

(** The ['error'] listener on the parser in respondWithGeojson;
    [entry.path] is not a property of the stream yauzl opens. *)
Definition geojson_parse_error (err : error) (c : ctx) : ctx :=
  send 400 "text/plain"
       (Raw ("Error parsing file " ++ Js.tmpl None ++ ": " ++ rendered err)) c.

(** The pipeline of respondWithGeojson over the rows of the entry. *)
Definition geojson_flow (next : ctx -> ctx) (e : entry) (c : ctx) : ctx :=
  fst (pipe_through2
         (fun record st => (write_point (to_point record) st, Callback))
         (fun st => st)
         (fun st => (next (end_ (write (Raw geojson_footer) (fst st))), snd st))
         (fun err st => (geojson_parse_error err (fst st), snd st))
         (rows e) (fin e) (c, 0%nat)).

(** [res.locals.outputHandler(res, stream, next)]. *)
Definition call_handler (h : handler) (e : entry) (c : ctx) : ctx :=
  match h with
  | RespondWithCsv => respondWithCsv e c
  | RespondWithGeojson => respondWithGeojson e c
  end.

Definition flow (next : ctx -> ctx) (h : handler) (e : entry) (c : ctx) : ctx :=
  match h with
  | RespondWithCsv => csv_flow next e c
  | RespondWithGeojson => geojson_flow next e c
  end.

(** *** The middlewares *)

(** [outputHandlers.hasOwnProperty(format)]. *)
Definition isOutputFormatSupported (fmt : string) : bool :=
  (fmt =? "csv") || (fmt =? "geojson").

Definition handler_of (fmt : string) : option handler :=
  if fmt =? "csv" then Some RespondWithCsv
  else if fmt =? "geojson" then Some RespondWithGeojson
  else None.

(** [_.defaultTo(value, 'csv')]. *)
Definition defaultTo (v : option string) (d : string) : string :=
  match v with
  | Some s => s
  | None => d
  end.

Definition preconditionsCheck (w : world) : middleware := fun next c =>
  let fmt := defaultTo (format c) "csv" in
  let c := set_format (Some fmt) c in
  if Js.falsy (OPENADDRESSES_METADATA_FILE w) then
    send_error 500 "OPENADDRESSES_METADATA_FILE not defined in process environment" c
  else if negb (isOutputFormatSupported fmt) then
    send_error 400 ("Unsupported output format: " ++ fmt) c
  else
    next (set_outputHandler (handler_of fmt) c).

Definition setupTemp : middleware := fun next c => next (set_temp c).

(** [s.replace(pattern, by)] with a string pattern: the first
    occurrence. *)
Definition replace_first (pattern by_ s : string) : string :=
  match index 0 pattern s with
  | Some i =>
      substring 0 i s ++ by_
        ++ substring (i + String.length pattern)
                     (String.length s - (i + String.length pattern)) s
  | None => s
  end.

(** The through2 transform of getMetaData. *)
Definition metadata_transform (record : row) (c : ctx) : ctx * verdict :=
  if Js.strict_eq (Js.get "source" record) (source c)
  then (set_datafile (Js.get "processed" record) c, Destroy)
  else (c, Callback).

(** The ['error'] listener on the parser in getMetaData;
    [res.locals.source] is a string and has no [data] property. *)
Definition metadata_parse_error (err : error) (c : ctx) : ctx :=
  send 400 "text/plain"
       (Raw ("Error retrieving file " ++ Js.tmpl None ++ ": " ++ rendered err)) c.

Definition getMetaData (w : world) : middleware := fun next c =>
  let file := Js.tmpl (OPENADDRESSES_METADATA_FILE w) in
  let c := set_source (replace_first "/download/" "" (baseUrl c)) c in
  match metadata w with
  | RequestError err => handleCatastrophicError (code err) file c
  | Response sc ctype body (records, fin) =>
      if negb (sc =? 200)%Z then
        if responseIsPlainText ctype
        then handlePlainTextNonCatastrophicError body sc file c
        else
          (* called as handleNonPlainTextNonCatastrophicError(res) *)
          handleNonPlainTextNonCatastrophicError file "[object Object]" false c
      else
        pipe_through2 metadata_transform
          (fun c1 => next c1)       (* 'close' *)
          (fun c1 => next c1)       (* 'finish' *)
          metadata_parse_error
          records fin c
  end.

(** The listeners getData installs on the open archive, and the
    callbacks they start. *)
Definition on_event (next : ctx -> ctx) (c : ctx) (ev : zip_event) : ctx :=
  match ev with
  | EvEntry e =>
      if Js.endsWith (fileName e) ".csv" && negb (csvFileFound c)
      then set_opening (opening c ++ [e]) c      (* zipfile.openReadStream *)
      else c                                     (* skipped *)
  | EvOpened =>
      match opening c with
      | e :: rest =>
          let c1 := set_csvFileFound true (set_opening rest c) in
          match outputHandler c1 with
          | Some h => call_handler h e (log_handled (fileName e) c1)
          | None => throw c1
          end
      | [] => c
      end
  | EvFlow =>
      match flowing c with
      | (h, e) :: rest => flow next h e (set_flowing rest c)
      | [] => c
      end
  | EvEnd =>
      let c1 :=
        if negb (csvFileFound c)
        then send_error 500 (Js.tmpl (datafile c) ++ " does not contain .csv file") c
        else c in
      next c1
  end.

Definition getData (w : world) : middleware := fun next c =>
  if Js.falsy (datafile c) then
    send_error 400 ("Unable to find " ++ Js.tmpl (source c) ++ " in "
                    ++ Js.tmpl (OPENADDRESSES_METADATA_FILE w)) c
  else
    let file := Js.tmpl (datafile c) in
    match data w with
    | RequestError err => handleCatastrophicError (code err) file c
    | Response sc ctype body staged =>
        if negb (sc =? 200)%Z then
          handlePlainTextNonCatastrophicError body sc file c
        else
          (* res.locals.temp.createWriteStream(): the staged file exists *)
          let c1 := set_disk (disk c ++ [tmp_path w]) c in
          match staged with
          | NotAZip err =>
              send 400 "text/plain"
                   (Raw ("Error retrieving file " ++ Js.tmpl None ++ ": "
                         ++ rendered err)) c1
          | Zip events => fold_left (on_event next) events c1
          end
    end.

(** [temp.cleanup()] removes the files temp tracks. *)
Definition cleanupTemp : middleware := fun _ c =>
  if negb (headersSent (res c)) then set_disk [] c else c.

(** [express.Router().get('/', [preconditionsCheck, setupTemp,
    getMetaData, getData, cleanupTemp])]. *)
Definition get_download (w : world) (c : ctx) : ctx :=
  preconditionsCheck w
    (setupTemp
       (getMetaData w
          (getData w
             (cleanupTemp (fun c1 => c1))))) c.

(** *** csv-parse on text without quoted fields *)

(** Splits [s] at every [sep]. *)
Fixpoint split_on (sep : ascii) (s : string) : list string :=
  match s with
  | EmptyString => [EmptyString]
  | String c rest =>
      if Ascii.eqb c sep then EmptyString :: split_on sep rest
      else
        match split_on sep rest with
        | first :: others => String c first :: others
        | [] => [String c EmptyString]
        end
  end.

(** The record of one line under [columns: true]: the values keyed by the
    header, assigned from left to right. *)
Fixpoint zip_columns (header values : list string) (acc : row) : option row :=
  match header, values with
  | [], [] => Some acc
  | h :: hs, v :: vs => zip_columns hs vs (Js.set h v acc)
  | _, _ => None                (* the column count differs from the header's *)
  end.

Fixpoint parse_lines (delimiter : ascii) (header : list string)
    (lines : list string) : list row * ending :=
  match lines with
  | [] => ([], Ends)
  | l :: rest =>
      if l =? EmptyString then parse_lines delimiter header rest   (* skip_empty_lines *)
      else
        match zip_columns header (split_on delimiter l) [] with
        | Some r =>
            let '(rs, fin) := parse_lines delimiter header rest in
            (r :: rs, fin)
        | None =>
            ([], Fails (mkError None None None
                          "Error: Number of columns is inconsistent"))
        end
  end.

Definition newline : ascii := ascii_of_nat 10.

(** [csvParse({delimiter, skip_empty_lines: true, columns: true})] on
    lines that end in a line feed and have no quoted field: the first
    line that is not empty names the columns. *)
Fixpoint csvParse_lines (delimiter : ascii) (lines : list string)
    : list row * ending :=
  match lines with
  | [] => ([], Ends)
  | l :: rest =>
      if l =? EmptyString then csvParse_lines delimiter rest
      else parse_lines delimiter (split_on delimiter l) rest
  end.

Definition csvParse (delimiter : ascii) (input : string) : list row * ending :=
  csvParse_lines delimiter (split_on newline input).

End Download.

(* ===================================================================== *)
(** ** The words of the specification *)
(* ===================================================================== *)

Module Spec.

(** "ends with [t]". *)
Definition EndsWith (s t : string) : Prop := exists p : string, s = (p ++ t)%string.

Fixpoint all_digits (s : string) : bool :=
  match s with
  | EmptyString => true
  | String c rest => App.is_digit c && all_digits rest
  end.

(** "matches pattern (Map|Feature)Server/<digits>(/)?$": somewhere in the
    locator stands [MapServer/] or [FeatureServer/], then one digit or
    more, then an optional slash, and the locator ends there. *)
Definition ArcgisPattern (s : string) : Prop :=
  exists before kind digits slash : string,
    s = (before ++ kind ++ "Server/" ++ digits ++ slash)%string
    /\ (kind = "Map" \/ kind = "Feature")
    /\ digits <> EmptyString /\ all_digits digits = true
    /\ (slash = EmptyString \/ slash = "/").

(** The classifier applied to a locator: the request that carries this
    source and nothing else, through determineType. *)
Definition classify (locator : string) : App.ctx :=
  App.determineType (fun c => c)
    (App.request (App.mkQuery (Some locator) None None None None None)).

(** What determineType decided for a locator, laid over the query of a
    request: the fields the classifier assigns replace the caller's, the
    others stay. *)
Definition overlay (d q : App.query) : App.query :=
  App.mkQuery (App.source q)
    (App.protocol d)
    (match App.type d with Some t => Some t | None => App.type q end)
    (match App.compression d with Some z => Some z | None => App.compression q end)
    (App.fields q) (App.results q).

(** The source of the request is classified as a direct source of type
    [t]: fetched over http, not compressed. *)
Definition direct (q : App.query) (t : string) : Prop :=
  let d := App.determineType_assign q in
  App.protocol d = Some "http" /\ App.type d = Some t
  /\ App.compression d = None.

(** The source of the request is classified as a zip archive. *)
Definition zipped (q : App.query) : Prop :=
  let d := App.determineType_assign q in
  App.protocol d = Some "http" /\ App.type d = None
  /\ App.compression d = Some "zip".

(** The sampled records determine the reported fields by their last
    element. *)
Definition fields_of_last (j : sample_json) : Prop :=
  forall l, sj_results j = Some l -> l <> [] ->
            sj_fields j = Some (Streams.keys_of (last l None)).

(** A text "parses as a floating-point number" when, after leading
    white space and an optional sign, it starts with [Infinity], with a
    digit, or with a dot followed by a digit. *)
Definition starts_number (s : string) : bool :=
  match s with
  | String c rest =>
      if App.is_digit c then true
      else if Ascii.eqb c "." then
        match rest with
        | String d _ => App.is_digit d
        | EmptyString => false
        end
      else prefix "Infinity" s
  | EmptyString => false
  end.

Definition numeric_prefix (s : string) : bool :=
  match Number.trim_start s with
  | String "-" r => starts_number r
  | String "+" r => starts_number r
  | r => starts_number r
  end.

(** The field [k] of a record does not parse as a number: it is absent,
    or its text has no numeric prefix. *)
Definition unparseable (k : string) (r : Download.row) : Prop :=
  match Js.get k r with
  | Some s => numeric_prefix s = false
  | None => True
  end.

(** [x] is a normal binary64 value within half a unit in the last place
    of the rational [num / den], [den > 0] and [|num / den| < 2^52]. *)
Definition nearest_binary64 (num den : Z) (x : spec_float) : Prop :=
  match x with
  | S754_finite s m e =>
      (e <= 0 /\ 2 ^ 52 <= Zpos m < 2 ^ 53
       /\ 2 * Z.abs (den * (if s then - Zpos m else Zpos m) - num * 2 ^ (- e))
          <= den)%Z
  | _ => False
  end.

(** A FeatureCollection as the sink writes it: the opening, the features
    separated by commas, the closing. *)
Fixpoint features_text (first : bool) (ps : list Download.point)
    : list Download.chunk :=
  match ps with
  | [] => []
  | p :: rest =>
      (if first then [] else [Download.Raw ","])
        ++ Download.Stringify p :: features_text false rest
  end.

Definition feature_collection (ps : list Download.point) : list Download.chunk :=
  Download.Raw Download.geojson_header
    :: features_text true ps ++ [Download.Raw Download.geojson_footer].

(** Nothing was written to the response yet. *)
Definition untouched (r : Download.res_t) : Prop :=
  Download.headersSent r = false /\ Download.written r = []
  /\ Download.ended r = false.

(** "embeds the source locator". *)
Definition embeds (locator message : string) : Prop :=
  exists a b : string, message = (a ++ locator ++ b)%string.

End Spec.

(* ===================================================================== *)
(** ** Concrete requests and remote sources *)
(* ===================================================================== *)

Module Examples.
Import Streams.

Definition no_error : error := mkError None None None "Error".

Definition only_source (s : string) : App.query :=
  App.mkQuery (Some s) None None None None None.

(** The archive of the specification's first-match example. *)
Definition three_entries : list App.zip_entry :=
  [ App.mkEntry "readme.txt" [] Ends;
    App.mkEntry "data.csv"
      [Some [("id", SStr "1"); ("name", SStr "Foo")]] Ends;
    App.mkEntry "extra.geojson"
      [Some [("kind", SStr "park")]] Ends ].

Definition archive_world : App.world :=
  App.mkWorld App.ArcgisError (App.mkGeojson [] (Fails no_error))
              (App.CsvError no_error) (App.ZipEntries three_entries).

(** Features whose properties differ from one to the next. *)
Definition irregular : list item :=
  [ Some [("a", SStr "1")];
    Some [("b", SStr "2"); ("c", SNull)] ].

Definition irregular_world : App.world :=
  App.mkWorld App.ArcgisError (App.mkGeojson irregular Ends)
              (App.CsvError no_error) App.ZipError.

(** Twelve rows of one column. *)
Definition twelve : list item :=
  map (fun v => Some [("n", SStr v)])
      ["1"; "2"; "3"; "4"; "5"; "6"; "7"; "8"; "9"; "10"; "11"; "12"].

Definition twelve_world : App.world :=
  App.mkWorld App.ArcgisError (App.mkGeojson [] (Fails no_error))
              (App.CsvResponse 200 "" twelve Ends) App.ZipError.

(** A CSV source whose connection is refused. *)
Definition refused : error := mkError (Some "ECONNREFUSED") None None
                                      "Error: connect ECONNREFUSED".

Definition refused_world : App.world :=
  App.mkWorld App.ArcgisError (App.mkGeojson [] (Fails refused))
              (App.CsvError refused) App.ZipError.

(** A CSV source that answers 200 and breaks after its first row, and a
    GeoJSON source that breaks after its first feature. *)
Definition malformed : error := mkError None None None "Error: Invalid data".

Definition broken_world : App.world :=
  App.mkWorld App.ArcgisError
              (App.mkGeojson [Some [("a", SStr "1")]] (Fails malformed))
              (App.CsvResponse 200 "" [Some [("a", SStr "1")]] (Fails malformed))
              App.ZipError.

(** The download endpoint: a metadata feed that lists one dataset twice,
    and an archive URL that answers 200 with bytes that are no zip
    file. *)
Definition feed : list Download.row :=
  [ [("source", "us/ca/kern"); ("processed", "http://example.com/kern.zip")];
    [("source", "us/ca/marin"); ("processed", "http://example.com/marin-1.zip")];
    [("source", "us/ca/marin"); ("processed", "http://example.com/marin-2.zip")] ].

Definition not_a_zip : error :=
  mkError None None None "Error: end of central directory record signature not found".

Definition bad_archive_world : Download.world :=
  Download.mkWorld (Some "http://example.com/state.txt")
    (Download.Response 200 (Some "text/plain") "" (feed, Ends))
    (Download.Response 200 (Some "application/zip") "" (Download.NotAZip not_a_zip))
    "/tmp/d-1.zip".

(** The CSV text of the specification's conversion example. *)
Definition lon_lat_name : string :=
  "LON,LAT,NAME" ++ String Download.newline "-122.1,37.5,Foo"
                 ++ String Download.newline EmptyString.

Definition entry_of (name input : string) : Download.entry :=
  let '(rows, fin) := Download.csvParse "," input in
  Download.mkEntry name input rows fin.

(** An archive that holds this one file, delivered in order: the entry,
    its read stream, its content, the end of the archive. *)
Definition good_archive_world (input : string) : Download.world :=
  Download.mkWorld (Some "http://example.com/state.txt")
    (Download.Response 200 (Some "text/plain") "" (feed, Ends))
    (Download.Response 200 (Some "application/zip") ""
       (Download.Zip [Download.EvEntry (entry_of "marin.csv" input);
                      Download.EvOpened; Download.EvFlow; Download.EvEnd]))
    "/tmp/d-2.zip".

(** Rows whose coordinates are not numbers. *)
Definition bad_coordinates : string :=
  "LON,LAT,NAME" ++ String Download.newline "east,37.5,Foo"
                 ++ String Download.newline "-122.1,,Bar"
                 ++ String Download.newline EmptyString.

(** An archive with two CSV files, each read stream opened before the
    next entry is announced. *)
Definition two_csv_world : Download.world :=
  Download.mkWorld (Some "http://example.com/state.txt")
    (Download.Response 200 (Some "text/plain") "" (feed, Ends))
    (Download.Response 200 (Some "application/zip") ""
       (Download.Zip [Download.EvEntry (entry_of "README.txt" "");
                      Download.EvEntry (entry_of "a.csv" lon_lat_name);
                      Download.EvOpened;
                      Download.EvEntry (entry_of "b.csv" bad_coordinates);
                      Download.EvFlow; Download.EvEnd]))
    "/tmp/d-3.zip".

End Examples.

(* ===================================================================== *)
(** ** Predicates of the proofs *)
(* ===================================================================== *)

(** What one accepted record does to the query. *)
Definition accept (q : App.query) (x : Streams.item) : App.query :=
  App.push_result x (App.set_fields (Streams.keys_of x) q).

(** The query holds the keys of its last result, when it has one. *)
Definition last_keys (q : App.query) : Prop :=
  forall l, App.results q = Some l -> l <> [] ->
            App.fields q = Some (Streams.keys_of (last l None)).

(** A sample already sent has the fields of its last result. *)
Definition sent_ok (c : App.ctx) : Prop :=
  forall j, App.res c = Some (mkResponse 200 (Sample j)) -> Spec.fields_of_last j.

(** Moreover, as long as nothing is sent, the query is ready to be. *)
Definition ready (c : App.ctx) : Prop :=
  sent_ok c /\ (App.res c = None -> last_keys (App.req_query c)).

(** The names that sampleZip hands to a decoder. *)
Definition matching (e : App.zip_entry) : bool :=
  Js.endsWith (App.path e) ".csv" || Js.endsWith (App.path e) ".geojson".

(* ===================================================================== *)
(** ** Strings *)
(* ===================================================================== *)

Section StringFacts.

Lemma append_nil_r (s : string) : (s ++ EmptyString)%string = s.
Proof. induction s as [|c s IH]; simpl; [reflexivity | now rewrite IH]. Qed.

Lemma append_assoc (a b c : string) :
  ((a ++ b) ++ c)%string = (a ++ (b ++ c))%string.
Proof. induction a as [|x a IH]; simpl; [reflexivity | now rewrite IH]. Qed.

Lemma length_append (a b : string) :
  String.length (a ++ b) = String.length a + String.length b.
Proof. induction a as [|x a IH]; simpl; [reflexivity | now rewrite IH]. Qed.

Lemma substring_all (s : string) : substring 0 (String.length s) s = s.
Proof. induction s as [|c s IH]; simpl; [reflexivity | now rewrite IH]. Qed.

Lemma substring_skip (p t : string) :
  substring (String.length p) (String.length t) (p ++ t) = t.
Proof. induction p as [|c p IH]; simpl; [apply substring_all | exact IH]. Qed.

Lemma substring_split (s : string) :
  forall n, n <= String.length s ->
    s = (substring 0 n s ++ substring n (String.length s - n) s)%string.
Proof.
  induction s as [|c s IH]; intros n Hn.
  - destruct n; reflexivity.
  - destruct n as [|n]; simpl.
    + now rewrite substring_all.
    + simpl in Hn. f_equal. apply IH. lia.
Qed.

(** [_.endsWith] decides "ends with". *)
Lemma endsWith_spec (s t : string) :
  Js.endsWith s t = true <-> Spec.EndsWith s t.
Proof.
  unfold Js.endsWith, Spec.EndsWith. split.
  - intros H. apply andb_true_iff in H. destruct H as [Hle Heq].
    apply Nat.leb_le in Hle. apply String.eqb_eq in Heq.
    exists (substring 0 (String.length s - String.length t) s).
    pose proof (substring_split s (String.length s - String.length t)) as Hs.
    replace (String.length s - (String.length s - String.length t))
      with (String.length t) in Hs by lia.
    rewrite Heq in Hs. apply Hs. lia.
  - intros [p ->]. rewrite length_append. apply andb_true_iff. split.
    + apply Nat.leb_le. lia.
    + replace (String.length p + String.length t - String.length t)
        with (String.length p) by lia.
      rewrite substring_skip. apply String.eqb_refl.
Qed.

Lemma endsWith_false (s t : string) :
  Js.endsWith s t = false <-> ~ Spec.EndsWith s t.
Proof.
  rewrite <- endsWith_spec. destruct (Js.endsWith s t); split; congruence.
Qed.

Lemma after_prefix_spec (p s r : string) :
  App.after_prefix p s = Some r <-> s = (p ++ r)%string.
Proof.
  revert s. induction p as [|a p IH]; intros s; simpl.
  - split; [intros [= ->]; reflexivity | intros ->; reflexivity].
  - destruct s as [|b s].
    + split; discriminate.
    + destruct (Ascii.eqb_spec a b) as [->|Hne].
      * rewrite IH. split; [intros ->; reflexivity | intros [= ->]; reflexivity].
      * split; [discriminate | intros [= E _]; congruence].
Qed.

Lemma digits_slash_end_spec (s : string) :
  App.digits_slash_end s = true <->
  exists ds sl : string, s = (ds ++ sl)%string /\ Spec.all_digits ds = true
                /\ (sl = EmptyString \/ sl = "/").
Proof.
  induction s as [|c s IH]; simpl.
  - split; [|reflexivity]. intros _. exists EmptyString, EmptyString. auto.
  - destruct (App.is_digit c) eqn:Hd.
    + rewrite IH. split.
      * intros (ds & sl & -> & Hds & Hsl). exists (String c ds), sl.
        simpl. rewrite Hd, Hds. auto.
      * intros (ds & sl & E & Hds & Hsl). destruct ds as [|d ds].
        -- simpl in E. destruct Hsl as [-> | ->]; [discriminate|].
           injection E as -> <-. discriminate.
        -- simpl in E. injection E as -> ->. simpl in Hds.
           apply andb_true_iff in Hds. exists ds, sl. tauto.
    + split.
      * intros H. apply andb_true_iff in H. destruct H as [Hc Hs].
        apply Ascii.eqb_eq in Hc. apply String.eqb_eq in Hs. subst.
        exists EmptyString, "/". auto.
      * intros (ds & sl & E & Hds & Hsl). destruct ds as [|d ds].
        -- simpl in E. destruct Hsl as [-> | ->]; [discriminate|].
           injection E as -> ->. reflexivity.
        -- simpl in E. injection E as -> ->. simpl in Hds.
           rewrite Hd in Hds. discriminate.
Qed.

Lemma digits1_slash_end_spec (s : string) :
  App.digits1_slash_end s = true <->
  exists ds sl : string,
    s = (ds ++ sl)%string /\ ds <> EmptyString /\ Spec.all_digits ds = true
                /\ (sl = EmptyString \/ sl = "/").
Proof.
  destruct s as [|c s]; simpl.
  - split; [discriminate|]. intros (ds & sl & E & Hne & _).
    destruct ds; [congruence | discriminate].
  - rewrite andb_true_iff, digits_slash_end_spec. split.
    + intros [Hd (ds & sl & -> & Hds & Hsl)]. exists (String c ds), sl.
      simpl. rewrite Hd, Hds. repeat split; auto. discriminate.
    + intros (ds & sl & E & Hne & Hds & Hsl). destruct ds as [|d ds]; [congruence|].
      simpl in E. injection E as -> ->. simpl in Hds.
      apply andb_true_iff in Hds. split; [tauto|]. exists ds, sl. tauto.
Qed.

Lemma match_here_spec (s : string) :
  App.match_here s = true <->
  exists kind digits slash : string,
    s = (kind ++ "Server/" ++ digits ++ slash)%string
    /\ (kind = "Map" \/ kind = "Feature")
    /\ digits <> EmptyString /\ Spec.all_digits digits = true
    /\ (slash = EmptyString \/ slash = "/").
Proof.
  unfold App.match_here. split.
  - destruct (App.after_prefix "MapServer/" s) as [r|] eqn:E1.
    + apply after_prefix_spec in E1. intros H.
      apply digits1_slash_end_spec in H. destruct H as (ds & sl & -> & H).
      exists "Map", ds, sl. subst s. simpl. tauto.
    + destruct (App.after_prefix "FeatureServer/" s) as [r|] eqn:E2; [|discriminate].
      apply after_prefix_spec in E2. intros H.
      apply digits1_slash_end_spec in H. destruct H as (ds & sl & -> & H).
      exists "Feature", ds, sl. subst s. simpl. tauto.
  - intros (kind & ds & sl & -> & [-> | ->] & H); simpl;
      apply digits1_slash_end_spec; exists ds, sl; tauto.
Qed.

(** [arcgisRegexp.test] decides the pattern of the specification. *)
Lemma arcgisRegexp_spec (s : string) :
  App.arcgisRegexp_test s = true <-> Spec.ArcgisPattern s.
Proof.
  unfold Spec.ArcgisPattern. induction s as [|c s IH].
  - cbn [App.arcgisRegexp_test]. rewrite orb_false_r, match_here_spec. split.
    + intros (k & ds & sl & E & H). exists EmptyString, k, ds, sl. tauto.
    + intros (b & k & ds & sl & E & H). destruct b; [|discriminate].
      exists k, ds, sl. tauto.
  - cbn [App.arcgisRegexp_test]. rewrite orb_true_iff, match_here_spec, IH. split.
    + intros [(k & ds & sl & E & H) | (b & k & ds & sl & E & H)].
      * exists EmptyString, k, ds, sl. tauto.
      * exists (String c b), k, ds, sl. simpl. rewrite E. tauto.
    + intros (b & k & ds & sl & E & H). destruct b as [|c' b].
      * left. exists k, ds, sl. tauto.
      * right. simpl in E. injection E as -> E. exists b, k, ds, sl. tauto.
Qed.

Lemma arcgisRegexp_false (s : string) :
  App.arcgisRegexp_test s = false <-> ~ Spec.ArcgisPattern s.
Proof.
  rewrite <- arcgisRegexp_spec. destruct (App.arcgisRegexp_test s); split; congruence.
Qed.

End StringFacts.

(* ===================================================================== *)
(** ** The classifier *)
(* ===================================================================== *)

Section Classifier.

(** The rule determineType applies, by the tests of the source. *)
Lemma determineType_assign_cases (q : App.query) :
  let s := Js.tmpl (App.source q) in
  App.determineType_assign q =
    if App.arcgisRegexp_test s then App.set_type "geojson" (App.set_protocol "ESRI" q)
    else if Js.endsWith s ".geojson" then App.set_type "geojson" (App.set_protocol "http" q)
    else if Js.endsWith s ".csv" then App.set_type "csv" (App.set_protocol "http" q)
    else if Js.endsWith s ".zip" then App.set_compression "zip" (App.set_protocol "http" q)
    else App.set_protocol "unknown" q.
Proof. reflexivity. Qed.

(** The examples of the specification. *)
Lemma classify_examples :
  let d s := let c := Spec.classify s in
             (App.res c, App.protocol (App.req_query c),
              App.type (App.req_query c), App.compression (App.req_query c)) in
  d "http://example.com/arcgis/rest/services/x/MapServer/3"
    = (None, Some "ESRI", Some "geojson", None)
  /\ d "http://example.com/FeatureServer/13/"
    = (None, Some "ESRI", Some "geojson", None)
  /\ d "foo.geojson" = (None, Some "http", Some "geojson", None)
  /\ d "foo.csv" = (None, Some "http", Some "csv", None)
  /\ d "foo.zip" = (None, Some "http", None, Some "zip")
  /\ d "foo.txt" = (Some (mkResponse 400 (Text "Unsupported type")),
                    Some "unknown", None, None)
  /\ d "http://example.com/MapServer/3/query.csv"
    = (None, Some "http", Some "csv", None)
  /\ d "http://example.com/data.csv/MapServer/3"
    = (None, Some "ESRI", Some "geojson", None).
Proof. repeat split. Qed.

(** C3. Classification is a function of the locator alone, computed
    without any access to the remote source ([Spec.classify] takes no
    world), by five ordered rules, the first that applies deciding:
    (Map|Feature)Server/digits with an optional final slash gives ESRI
    and geojson; a final [.geojson] gives http and geojson; a final
    [.csv] gives http and csv; a final [.zip] gives http, compression
    zip and no type; any other locator is answered 400 "Unsupported
    type".  On any request that carries the locator, determineType
    decides the same and writes exactly the fields the rule names. *)
Theorem classify_by_locator (s : string) :
  let c := Spec.classify s in
  let d := App.req_query c in
  (Spec.ArcgisPattern s ->
     App.res c = None /\ App.protocol d = Some "ESRI"
     /\ App.type d = Some "geojson" /\ App.compression d = None)
  /\ (~ Spec.ArcgisPattern s -> Spec.EndsWith s ".geojson" ->
     App.res c = None /\ App.protocol d = Some "http"
     /\ App.type d = Some "geojson" /\ App.compression d = None)
  /\ (~ Spec.ArcgisPattern s -> ~ Spec.EndsWith s ".geojson" ->
      Spec.EndsWith s ".csv" ->
     App.res c = None /\ App.protocol d = Some "http"
     /\ App.type d = Some "csv" /\ App.compression d = None)
  /\ (~ Spec.ArcgisPattern s -> ~ Spec.EndsWith s ".geojson" ->
      ~ Spec.EndsWith s ".csv" -> Spec.EndsWith s ".zip" ->
     App.res c = None /\ App.protocol d = Some "http"
     /\ App.type d = None /\ App.compression d = Some "zip")
  /\ (~ Spec.ArcgisPattern s -> ~ Spec.EndsWith s ".geojson" ->
      ~ Spec.EndsWith s ".csv" -> ~ Spec.EndsWith s ".zip" ->
     App.res c = Some (mkResponse 400 (Text "Unsupported type")))
  /\ (forall (q : App.query) (next : App.ctx -> App.ctx),
        App.source q = Some s ->
        match App.res c with
        | None =>
            App.determineType next (App.request q)
            = next (App.request (Spec.overlay d q))
        | Some r =>
            App.res (App.determineType next (App.request q)) = Some r
        end).
Proof.
  unfold Spec.classify, App.determineType, App.with_query, App.request.
  cbn [App.req_query App.res App.late App.uncaught App.decoded App.drained].
  rewrite determineType_assign_cases. cbn [App.source Js.tmpl].
  repeat rewrite <- arcgisRegexp_false. repeat rewrite <- endsWith_false.
  rewrite <- arcgisRegexp_spec. repeat rewrite <- endsWith_spec.
  destruct (App.arcgisRegexp_test s) eqn:Ha;
    [|destruct (Js.endsWith s ".geojson") eqn:Hg;
      [|destruct (Js.endsWith s ".csv") eqn:Hc;
        [|destruct (Js.endsWith s ".zip") eqn:Hz]]];
    cbn; (repeat split; try congruence; try tauto);
    intros q next Hq; rewrite determineType_assign_cases, Hq;
    cbn [Js.tmpl]; rewrite ?Ha, ?Hg, ?Hc, ?Hz; cbn; try rewrite Hq; reflexivity.
Qed.

End Classifier.

(* ===================================================================== *)
(** ** The route chain *)
(* ===================================================================== *)

Section Dispatch.

(** C10. Which sampler runs is not decided by the source alone: the
    classifier writes into the query object the caller fills.  For a
    source ending in [.csv] sent with [compression=zip], and for a source
    ending in [.zip] sent with [type=csv], the classifier accepts the
    source, each of the four routes declines, and whatever the remote
    source holds the answer is 200 with neither fields nor results;
    the same csv source sent alone is sampled. *)
Theorem dispatch_depends_on_caller_parameters :
  let q1 := App.mkQuery (Some "http://example.com/data.csv")
                        None None (Some "zip") None None in
  let q2 := App.mkQuery (Some "http://example.com/data.zip")
                        None (Some "csv") None None None in
  let q0 := App.mkQuery (Some "http://example.com/data.csv")
                        None None None None None in
  let declined q :=
    let d := App.determineType_assign q in
    App.protocol d <> Some "unknown"
    /\ App.typecheck_test (Some "ESRI") (Some "geojson") None d = false
    /\ App.typecheck_test (Some "http") (Some "geojson") None d = false
    /\ App.typecheck_test (Some "http") (Some "csv") None d = false
    /\ App.typecheck_test (Some "http") None (Some "zip") d = false in
  let empty_answer (w : App.world) q :=
    exists j, App.res (App.get_fields w (App.request q))
              = Some (mkResponse 200 (Sample j))
              /\ sj_fields j = None /\ sj_results j = None in
  declined q1 /\ declined q2
  /\ (forall w, empty_answer w q1 /\ empty_answer w q2)
  /\ (forall w text r,
        App.csv w = App.CsvResponse 200 text [r] Streams.Ends ->
        exists j, App.res (App.get_fields w (App.request q0))
                  = Some (mkResponse 200 (Sample j))
                  /\ sj_results j = Some [r]).
Proof.
  cbv zeta. repeat split; try discriminate.
  - eexists. cbn. repeat split.
  - eexists. cbn. repeat split.
  - intros w text r Hw. eexists.
    unfold App.get_fields, App.preconditionsCheck. cbn.
    unfold App.csvRouter, App.typecheck, App.sampleCsv. cbn. rewrite Hw. cbn.
    split; reflexivity.
Qed.

End Dispatch.

(* ===================================================================== *)
(** ** The bounded sampler *)
(* ===================================================================== *)

Section Sampler.

Lemma accept_results (q : App.query) (x : Streams.item) (l : list Streams.item) :
  App.results q = Some l -> App.results (accept q x) = Some (l ++ [x]).
Proof. intros H. unfold accept, App.push_result. cbn. rewrite H. reflexivity. Qed.

Lemma accept_keeps (q : App.query) (x : Streams.item) :
  App.source (accept q x) = App.source q
  /\ App.protocol (accept q x) = App.protocol q
  /\ App.type (accept q x) = App.type q
  /\ App.compression (accept q x) = App.compression q.
Proof.
  unfold accept, App.push_result. cbn.
  destruct (App.results q); cbn; repeat split.
Qed.

Lemma accept_all_results (xs : list Streams.item) :
  forall q l, App.results q = Some l ->
    App.results (fold_left accept xs q) = Some (l ++ xs).
Proof.
  induction xs as [|x xs IH]; intros q l H; cbn.
  - now rewrite app_nil_r.
  - rewrite (IH _ (l ++ [x])); [now rewrite <- app_assoc | now apply accept_results].
Qed.

Lemma accept_all_keeps (xs : list Streams.item) :
  forall q,
    App.source (fold_left accept xs q) = App.source q
    /\ App.protocol (fold_left accept xs q) = App.protocol q
    /\ App.type (fold_left accept xs q) = App.type q
    /\ App.compression (fold_left accept xs q) = App.compression q.
Proof.
  induction xs as [|x xs IH]; intros q; cbn; [repeat split|].
  destruct (IH (accept q x)) as (H1 & H2 & H3 & H4).
  destruct (accept_keeps q x) as (K1 & K2 & K3 & K4).
  repeat split; congruence.
Qed.

(** The through2 transform lets through what is missing to ten, then
    destroys the stream; the continuation runs once, on close or on
    finish. *)
Lemma pipe_sample (next : App.ctx -> App.ctx) (rows : list Streams.item) :
  forall (c : App.ctx) (l : list Streams.item),
    App.results (App.req_query c) = Some l ->
    Streams.pipe_through2 App.sample_transform next next App.unhandled
      rows Streams.Ends c
    = next (App.with_query
              (fun q => fold_left accept (firstn (10 - List.length l) rows) q) c).
Proof.
  induction rows as [|r rows IH]; intros c l H.
  - cbn. rewrite firstn_nil. destruct c; reflexivity.
  - cbn [Streams.pipe_through2]. unfold App.sample_transform. rewrite H.
    destruct (Nat.ltb_spec (List.length l) 10) as [Hlt|Hge].
    + rewrite (IH _ (l ++ [r])).
      * rewrite length_app. cbn [List.length].
        replace (10 - List.length l) with (S (10 - (List.length l + 1))) by lia.
        destruct c; reflexivity.
      * cbn. now apply accept_results.
    + replace (10 - List.length l) with 0 by lia. destruct c; reflexivity.
Qed.

(** oboe delivers the features up to index 9, then the parse is aborted;
    the continuation runs once, on abort or on done. *)
Lemma oboe_sample (next : App.ctx -> App.ctx)
    (fail : Streams.error -> App.ctx -> App.ctx) (features : list Streams.item) :
  forall (i : nat) (c : App.ctx), i <= 9 ->
    Streams.oboe App.node_feature next fail next i features Streams.Ends c
    = next (App.with_query
              (fun q => fold_left accept (firstn (10 - i) features) q) c).
Proof.
  induction features as [|f features IH]; intros i c Hi.
  - cbn. rewrite firstn_nil. destruct c; reflexivity.
  - cbn [Streams.oboe]. destruct (Nat.eqb_spec i 9) as [->|Hne].
    + destruct c; reflexivity.
    + rewrite IH by lia.
      replace (10 - i) with (S (10 - S i)) by lia. destruct c; reflexivity.
Qed.

(** A request classified http and not unknown passes the two checks
    that precede the routers. *)
Lemma http_source_truthy (q : App.query) :
  App.protocol (App.determineType_assign q) = Some "http" ->
  Js.falsy (App.source q) = false.
Proof.
  intros H. destruct (App.source q) as [[|a s]|] eqn:E; try reflexivity;
    rewrite determineType_assign_cases, E in H; cbn in H; discriminate.
Qed.

(** C2. A source classified as direct CSV, or as direct GeoJSON, whose
    stream yields [records] and ends without error, is answered 200 with
    the first ten of these records as results: their number is
    [min 10 (length records)], also when it is less than ten. *)
Theorem sample_length_is_min (w : App.world) (q : App.query)
    (records : list Streams.item) :
  (Spec.direct q "csv"
   /\ exists text, App.csv w = App.CsvResponse 200 text records Streams.Ends)
  \/ (Spec.direct q "geojson"
      /\ App.geojson w = App.mkGeojson records Streams.Ends) ->
  exists j l,
    App.res (App.get_fields w (App.request q)) = Some (mkResponse 200 (Sample j))
    /\ sj_results j = Some l
    /\ l = firstn 10 records
    /\ List.length l = Nat.min 10 (List.length records).
Proof.
  intros H.
  assert (Ht : Js.falsy (App.source q) = false)
    by (destruct H as [[(Hp & _) _] | [(Hp & _) _]]; now apply http_source_truthy).
  unfold App.get_fields, App.preconditionsCheck, App.determineType.
  cbn [App.req_query App.request]. rewrite Ht.
  unfold App.with_query. cbn [App.req_query App.res App.late App.uncaught
                              App.decoded App.drained App.request].
  unfold Spec.direct in H. cbv zeta in H.
  set (d := App.determineType_assign q) in *.
  destruct H as [[(Hp & Hty & Hz) (text & Hw)] | [(Hp & Hty & Hz) Hw]].
  - rewrite Hp. cbn [Js.strict_eq String.eqb Ascii.eqb Bool.eqb].
    unfold App.arcgisRouter, App.geojsonRouter, App.csvRouter, App.typecheck,
      App.typecheck_test.
    cbn [App.req_query]. rewrite Hp, Hty, Hz. cbn [Js.strict_eq String.eqb Ascii.eqb Bool.eqb andb].
    unfold App.sampleCsv. rewrite Hw. cbn [Z.eqb Pos.eqb negb].
    rewrite (pipe_sample _ records _ []) by reflexivity.
    cbn [List.length Nat.sub].
    unfold App.zipRouter, App.typecheck, App.typecheck_test, App.with_query.
    cbn [App.req_query App.res App.late App.uncaught App.decoded App.drained].
    set (q1 := fold_left accept (firstn 10 records) (App.set_results [] d)).
    destruct (accept_all_keeps (firstn 10 records) (App.set_results [] d))
      as (_ & K2 & K3 & K4).
    fold q1 in K2, K3, K4.
    cbn [App.protocol App.type App.compression App.set_results] in K2, K3, K4.
    rewrite K2, K3, K4, Hp, Hty, Hz.
    cbn [Js.strict_eq String.eqb Ascii.eqb Bool.eqb andb].
    unfold App.output, App.send. cbn [App.req_query App.res].
    eexists; eexists. split; [reflexivity|]. cbn [sj_results].
    split; [apply (accept_all_results _ _ []); reflexivity|].
    split; [reflexivity | apply length_firstn].
  - rewrite Hp. cbn [Js.strict_eq String.eqb Ascii.eqb Bool.eqb].
    unfold App.arcgisRouter, App.geojsonRouter, App.typecheck, App.typecheck_test.
    cbn [App.req_query]. rewrite Hp, Hty, Hz. cbn [Js.strict_eq String.eqb Ascii.eqb Bool.eqb andb].
    unfold App.sampleGeojson. rewrite Hw. cbn [App.g_features App.g_end].
    rewrite oboe_sample by lia. cbn [Nat.sub].
    unfold App.csvRouter, App.zipRouter, App.typecheck, App.typecheck_test,
      App.with_query.
    cbn [App.req_query App.res App.late App.uncaught App.decoded App.drained].
    set (q1 := fold_left accept (firstn 10 records) (App.set_results [] d)).
    destruct (accept_all_keeps (firstn 10 records) (App.set_results [] d))
      as (_ & K2 & K3 & K4).
    fold q1 in K2, K3, K4.
    cbn [App.protocol App.type App.compression App.set_results] in K2, K3, K4.
    rewrite K2, K3, K4, Hp, Hty, Hz.
    cbn [Js.strict_eq String.eqb Ascii.eqb Bool.eqb andb].
    unfold App.output, App.send. cbn [App.req_query App.res].
    eexists; eexists. split; [reflexivity|]. cbn [sj_results].
    split; [apply (accept_all_results _ _ []); reflexivity|].
    split; [reflexivity | apply length_firstn].
Qed.

End Sampler.

(* ===================================================================== *)
(** ** The reported fields *)
(* ===================================================================== *)

Section Fields.

Lemma ready_sent_ok (c : App.ctx) : ready c -> sent_ok c.
Proof. intros [H _]. exact H. Qed.

Lemma last_keys_reset (q : App.query) : last_keys (App.set_results [] q).
Proof. intros l [= <-] H. congruence. Qed.

Lemma last_keys_reset_type (t : string) (q : App.query) :
  last_keys (App.set_results [] (App.set_type t q)).
Proof. intros l [= <-] H. congruence. Qed.

Lemma last_keys_accept (q : App.query) (x : Streams.item) :
  last_keys (App.push_result x (App.set_fields (Streams.keys_of x) q)).
Proof.
  unfold last_keys, App.push_result. cbn.
  destruct (App.results q) as [l0|] eqn:E; cbn.
  - intros l [= <-] _. now rewrite last_last.
  - rewrite E. discriminate.
Qed.

Lemma ready_with_query (f : App.query -> App.query) (c : App.ctx) :
  sent_ok c -> last_keys (f (App.req_query c)) -> ready (App.with_query f c).
Proof. intros Hs Hl. split; [exact Hs | intros _; exact Hl]. Qed.

Lemma sent_ok_send_text (s : Z) (m : string) (c : App.ctx) :
  sent_ok c -> ready (App.send s (Text m) c).
Proof.
  intros Hs. unfold App.send. destruct (App.res c) eqn:E.
  - split; [intros j Hj; cbn in Hj; apply Hs; congruence | discriminate].
  - split; [intros j Hj; cbn in Hj; discriminate | discriminate].
Qed.

Lemma ready_throw (c : App.ctx) : ready c -> ready (App.throw c).
Proof. intros [H1 H2]. split; [exact H1 | exact H2]. Qed.

Lemma sent_ok_throw (c : App.ctx) : sent_ok c -> sent_ok (App.throw c).
Proof. intros H. exact H. Qed.

Lemma ready_log_decoded (p : string) (c : App.ctx) :
  ready c -> ready (App.log_decoded p c).
Proof. intros [H1 H2]. split; [exact H1 | exact H2]. Qed.

Lemma sent_ok_log_drained (p : string) (c : App.ctx) :
  sent_ok c -> sent_ok (App.log_drained p c).
Proof. intros H. exact H. Qed.

(** [output] sends what the query holds. *)
Lemma ready_output (c : App.ctx) :
  ready c -> sent_ok (App.output (fun c1 => c1) c).
Proof.
  intros [Hs Hq]. unfold App.output, App.send. destruct (App.res c) eqn:E.
  - intros j Hj. cbn in Hj. apply Hs. congruence.
  - intros j Hj. cbn in Hj. injection Hj as <-.
    intros l Hl Hne. cbn in *. now apply Hq.
Qed.

Section Continuation.
Variable next : App.ctx -> App.ctx.
Hypothesis next_ok : forall c, ready c -> sent_ok (next c).

Lemma pipe_sample_ok (rows : list Streams.item) (fin : Streams.ending) :
  forall c, ready c ->
    sent_ok (Streams.pipe_through2 App.sample_transform
               (fun c1 => next c1) (fun c1 => next c1) App.unhandled rows fin c).
Proof.
  induction rows as [|r rows IH]; intros c Hc; cbn [Streams.pipe_through2].
  - destruct fin; [now apply next_ok | now apply sent_ok_throw, ready_sent_ok].
  - unfold App.sample_transform.
    destruct (App.results (App.req_query c)) as [l|].
    + destruct (List.length l <? 10)%nat.
      * apply IH. apply ready_with_query;
          [now apply ready_sent_ok | apply last_keys_accept].
      * now apply next_ok.
    + now apply next_ok, ready_throw.
Qed.

Lemma oboe_sample_ok (fail : Streams.error -> App.ctx -> App.ctx)
    (fail_ok : forall err c, sent_ok c -> sent_ok (fail err c))
    (features : list Streams.item) (fin : Streams.ending) :
  forall i c, ready c ->
    sent_ok (Streams.oboe App.node_feature (fun c1 => next c1) fail
               (fun c1 => next c1) i features fin c).
Proof.
  induction features as [|f features IH]; intros i c Hc; cbn [Streams.oboe].
  - destruct fin; [now apply next_ok | now apply fail_ok, ready_sent_ok].
  - assert (H1 : ready (App.node_feature f c))
      by (apply ready_with_query;
          [now apply ready_sent_ok | apply last_keys_accept]).
    destruct (i =? 9)%nat; [now apply next_ok | now apply IH].
Qed.

Lemma sampleGeojson_ok (w : App.world) (c : App.ctx) :
  sent_ok c -> sent_ok (App.sampleGeojson w next c).
Proof.
  intros Hc. unfold App.sampleGeojson. apply oboe_sample_ok.
  - intros err c1 H1. now apply ready_sent_ok, sent_ok_send_text.
  - apply ready_with_query; [exact Hc | apply last_keys_reset].
Qed.

Lemma sampleCsv_ok (w : App.world) (c : App.ctx) :
  sent_ok c -> sent_ok (App.sampleCsv w next c).
Proof.
  intros Hc. unfold App.sampleCsv. destruct (App.csv w) as [err|sc text rows fin].
  - now apply ready_sent_ok, sent_ok_send_text.
  - destruct (negb (sc =? 200)%Z).
    + now apply ready_sent_ok, sent_ok_send_text.
    + apply pipe_sample_ok. apply ready_with_query;
        [exact Hc | apply last_keys_reset].
Qed.

Lemma on_entry_ok (c : App.ctx) (e : App.zip_entry) :
  sent_ok c -> sent_ok (App.on_entry next c e).
Proof.
  intros Hc. unfold App.on_entry.
  destruct (Js.endsWith (App.path e) ".csv");
    [|destruct (Js.endsWith (App.path e) ".geojson")].
  - apply pipe_sample_ok, ready_log_decoded, ready_with_query;
      [exact Hc | apply last_keys_reset_type].
  - apply oboe_sample_ok; [intros _ c1 H1; exact H1|].
    apply ready_log_decoded, ready_with_query;
      [exact Hc | apply last_keys_reset_type].
  - now apply sent_ok_log_drained.
Qed.

Lemma sampleZip_ok (w : App.world) (c : App.ctx) :
  sent_ok c -> sent_ok (App.sampleZip w next c).
Proof.
  intros Hc. unfold App.sampleZip. destruct (App.zip w) as [|entries].
  - now apply sent_ok_throw.
  - assert (H : sent_ok (fold_left (App.on_entry next) entries c)).
    { revert c Hc. induction entries as [|e entries IH]; intros c Hc; cbn.
      - exact Hc.
      - now apply IH, on_entry_ok. }
    unfold App.on_zip_finish.
    destruct (Js.falsy _); [now apply ready_sent_ok, sent_ok_send_text | exact H].
Qed.

End Continuation.

(** Each router hands a ready state to what follows, or samples. *)
Lemma zipRouter_ok (w : App.world) (c : App.ctx) :
  ready c -> sent_ok (App.zipRouter w (App.output (fun c1 => c1)) c).
Proof.
  intros Hc. unfold App.zipRouter, App.typecheck. destruct (App.typecheck_test _ _ _ _).
  - apply sampleZip_ok; [apply ready_output | now apply ready_sent_ok].
  - now apply ready_output.
Qed.

Lemma csvRouter_ok (w : App.world) (c : App.ctx) :
  ready c ->
  sent_ok (App.csvRouter w (App.zipRouter w (App.output (fun c1 => c1))) c).
Proof.
  intros Hc. unfold App.csvRouter, App.typecheck. destruct (App.typecheck_test _ _ _ _).
  - apply sampleCsv_ok; [apply zipRouter_ok | now apply ready_sent_ok].
  - now apply zipRouter_ok.
Qed.


End Fields.

(* ===================================================================== *)
(** ** The archive scanner of the sample endpoint *)
(* ===================================================================== *)

Section Scanner.

Section Logs.
Variable next : App.ctx -> App.ctx.
Hypothesis next_decoded : forall c, App.decoded (next c) = App.decoded c.

Lemma pipe_decoded (rows : list Streams.item) (fin : Streams.ending) :
  forall c,
    App.decoded (Streams.pipe_through2 App.sample_transform
                   (fun c1 => next c1) (fun c1 => next c1) App.unhandled rows fin c)
    = App.decoded c.
Proof.
  induction rows as [|r rows IH]; intros c; cbn [Streams.pipe_through2].
  - destruct fin; [apply next_decoded | reflexivity].
  - unfold App.sample_transform.
    destruct (App.results (App.req_query c)) as [l|].
    + destruct (List.length l <? 10)%nat; [now rewrite IH | apply next_decoded].
    + now rewrite next_decoded.
Qed.

Lemma oboe_decoded (features : list Streams.item) (fin : Streams.ending) :
  forall i c,
    App.decoded (Streams.oboe App.node_feature (fun c1 => next c1)
                   (fun _ c1 => c1) (fun c1 => next c1) i features fin c)
    = App.decoded c.
Proof.
  induction features as [|f features IH]; intros i c; cbn [Streams.oboe].
  - destruct fin; [apply next_decoded | reflexivity].
  - destruct (i =? 9)%nat; [now rewrite next_decoded | now rewrite IH].
Qed.

(** sampleZip has no memory of a match: every entry named [.csv] or
    [.geojson] is piped into a decoder, in the order of the archive. *)
Lemma on_entry_decodes_every_match (entries : list App.zip_entry) :
  forall c,
    App.decoded (fold_left (App.on_entry next) entries c)
    = App.decoded c ++ map App.path (filter matching entries).
Proof.
  induction entries as [|e entries IH]; intros c; cbn [fold_left filter].
  - now rewrite app_nil_r.
  - rewrite IH. unfold App.on_entry, matching.
    destruct (Js.endsWith (App.path e) ".csv");
      [|destruct (Js.endsWith (App.path e) ".geojson")]; cbn [orb map].
    + rewrite pipe_decoded. cbn. now rewrite <- app_assoc.
    + rewrite oboe_decoded. cbn. now rewrite <- app_assoc.
    + reflexivity.
Qed.

End Logs.


End Scanner.

(* ===================================================================== *)
(** ** Failures of the remote source, sample endpoint *)
(* ===================================================================== *)

Section Failures.

Lemma embeds_middle (a s b : string) : Spec.embeds s (a ++ s ++ b)%string.
Proof. exists a, b. reflexivity. Qed.

(** oboe reports a failure that comes before the tenth feature. *)
Lemma oboe_fails (next : App.ctx -> App.ctx)
    (fail : Streams.error -> App.ctx -> App.ctx) (err : Streams.error)
    (features : list Streams.item) :
  forall (i : nat) (c : App.ctx), i + List.length features <= 9 ->
    Streams.oboe App.node_feature next fail next i features (Streams.Fails err) c
    = fail err (App.with_query (fun q => fold_left accept features q) c).
Proof.
  induction features as [|f features IH]; intros i c Hi.
  - cbn. destruct c; reflexivity.
  - cbn [Streams.oboe]. cbn [List.length] in Hi.
    destruct (Nat.eqb_spec i 9) as [->|Hne]; [lia|].
    rewrite IH by lia. destruct c; reflexivity.
Qed.

(** C8, as the code has it. For a direct CSV source, an ['error'] event
    of the request (a transport failure such as a refused connection)
    is answered 400 with the text
    "Error retrieving file <source>: <err.code>".  For a direct GeoJSON
    source, a failure reported by the streaming parser before the
    tenth feature, be it before the first byte or in mid-stream, is
    answered 400 with the text
    "Error retrieving file <source>: <err.body> (<err.statusCode>)".
    Both texts embed the source locator. *)
Theorem failure_reports (w : App.world) (q : App.query) (s : string)
    (err : Streams.error) (message : string) :
  App.source q = Some s ->
  (Spec.direct q "csv" /\ App.csv w = App.CsvError err
   /\ message = ("Error retrieving file " ++ s ++ ": "
                 ++ Js.tmpl (Streams.code err))%string)
  \/ (Spec.direct q "geojson"
      /\ (exists features,
            App.geojson w = App.mkGeojson features (Streams.Fails err)
            /\ List.length features < 10)
      /\ message = ("Error retrieving file " ++ s ++ ": "
                    ++ Js.tmpl (Streams.body_text err)
                    ++ " (" ++ Js.tmplOptZ (Streams.statusCode err) ++ ")")%string) ->
  App.res (App.get_fields w (App.request q)) = Some (mkResponse 400 (Text message))
  /\ Spec.embeds s message.
Proof.
  intros Hs H. split; [|destruct H as [(_ & _ & ->) | (_ & _ & ->)]; apply embeds_middle].
  assert (Hp : App.protocol (App.determineType_assign q) = Some "http")
    by (destruct H as [((Hp & _) & _) | ((Hp & _) & _)]; exact Hp).
  unfold App.get_fields, App.preconditionsCheck, App.determineType.
  cbn [App.req_query App.request]. rewrite (http_source_truthy q Hp).
  unfold App.with_query. cbn [App.req_query App.res App.late App.uncaught
                              App.decoded App.drained App.request].
  unfold Spec.direct in H. cbv zeta in H.
  assert (Hsrc : App.source (App.determineType_assign q) = Some s).
  { rewrite determineType_assign_cases. cbv zeta.
    repeat match goal with |- context [if ?b then _ else _] => destruct b end;
      exact Hs. }
  set (d := App.determineType_assign q) in *.
  rewrite Hp. cbn [Js.strict_eq String.eqb Ascii.eqb Bool.eqb].
  unfold App.arcgisRouter, App.typecheck, App.typecheck_test at 1.
  cbn [App.req_query]. rewrite Hp.
  cbn [Js.strict_eq String.eqb Ascii.eqb Bool.eqb andb].
  unfold App.geojsonRouter, App.typecheck.
  destruct H as [((_ & Hty & Hz) & Hw & ->)
                | ((_ & Hty & Hz) & (features & Hw & Hlen) & ->)];
    unfold App.typecheck_test at 1; cbn [App.req_query];
    rewrite Hp, Hty, Hz; cbn [Js.strict_eq String.eqb Ascii.eqb Bool.eqb andb].
  - unfold App.csvRouter, App.typecheck, App.typecheck_test at 1.
    cbn [App.req_query]. rewrite Hp, Hty, Hz.
    cbn [Js.strict_eq String.eqb Ascii.eqb Bool.eqb andb].
    unfold App.sampleCsv. rewrite Hw. cbn [App.req_query]. rewrite Hsrc.
    reflexivity.
  - unfold App.sampleGeojson. rewrite Hw. cbn [App.g_features App.g_end].
    rewrite oboe_fails by (cbn; lia).
    unfold App.geojson_fail, App.with_query.
    cbn [App.req_query App.res App.late App.uncaught App.decoded App.drained].
    destruct (accept_all_keeps features (App.set_results [] d)) as (K1 & _).
    cbn [App.source App.set_results] in K1. rewrite K1, Hsrc. reflexivity.
Qed.

(** C8 as stated fails.  A CSV source that answers 200 and breaks in
    mid-stream gets no error response at all: the parser's ['error']
    event has no listener.  A zip source that cannot be reached gets none
    either.  And for a GeoJSON source a refused connection and a
    malformed body lead to the very same response, which tells neither
    from the other. *)
Lemma failure_kinds_not_reported :
  let csv_q := Examples.only_source "http://example.com/data.csv" in
  let zip_q := Examples.only_source "http://example.com/data.zip" in
  let geo_q := Examples.only_source "http://example.com/data.geojson" in
  let mid := App.get_fields Examples.broken_world (App.request csv_q) in
  let zipped := App.get_fields Examples.refused_world (App.request zip_q) in
  (App.res mid = None /\ App.uncaught mid = 1)
  /\ (App.res zipped = None /\ App.uncaught zipped = 1)
  /\ App.res (App.get_fields Examples.refused_world (App.request geo_q))
     = App.res (App.get_fields Examples.broken_world (App.request geo_q)).
Proof. cbv zeta. repeat split. Qed.

End Failures.

(* ===================================================================== *)
(** ** parseFloat *)
(* ===================================================================== *)

Section ParseFloat.

Lemma digit_of_is_digit (c : ascii) :
  Number.digit_of c = None <-> App.is_digit c = false.
Proof.
  unfold Number.digit_of, App.is_digit.
  destruct ((48 <=? nat_of_ascii c)%nat && (nat_of_ascii c <=? 57)%nat);
    split; congruence.
Qed.

Lemma read_digits_stops (acc : Z) (n : nat) (c : ascii) (rest : string) :
  App.is_digit c = false ->
  Number.read_digits acc n (String c rest) = (acc, n, String c rest).
Proof.
  intros H. apply digit_of_is_digit in H. cbn [Number.read_digits]. now rewrite H.
Qed.

(** The count of digits never decreases, and grows on a digit. *)
Lemma read_digits_count (s : string) :
  forall acc n, n <= snd (fst (Number.read_digits acc n s)).
Proof.
  induction s as [|c s IH]; intros acc n; cbn [Number.read_digits]; [cbn; lia|].
  destruct (Number.digit_of c) as [d|]; [|cbn; lia].
  specialize (IH (10 * acc + d)%Z (S n)). lia.
Qed.

Lemma read_digits_starts (acc : Z) (n : nat) (c : ascii) (rest : string) :
  App.is_digit c = true ->
  S n <= snd (fst (Number.read_digits acc n (String c rest))).
Proof.
  intros H. cbn [Number.read_digits]. destruct (Number.digit_of c) eqn:E.
  - apply read_digits_count.
  - apply digit_of_is_digit in E. congruence.
Qed.

(** Without a numeric prefix there is nothing to read. *)
Lemma parse_unsigned_nothing (sign : bool) (s : string) :
  Spec.starts_number s = false -> Number.parse_unsigned sign s = Number.NaN.
Proof.
  unfold Spec.starts_number, Number.parse_unsigned, Number.read_decimal.
  destruct s as [|c rest]; [reflexivity|].
  destruct (App.is_digit c) eqn:Hc; [discriminate|].
  rewrite (read_digits_stops _ _ _ _ Hc).
  destruct (Ascii.eqb_spec c ".") as [->|Hdot].
  - destruct rest as [|d rest']; [reflexivity|]. intros Hd.
    rewrite (read_digits_stops _ _ _ _ Hd). reflexivity.
  - intros ->.
    destruct c as [[] [] [] [] [] [] [] []]; try reflexivity; congruence.
Qed.

Section Rounding.

Lemma iter_pos_keeps {A : Type} (P : A -> Prop) (f : A -> A)
    (Hf : forall x, P x -> P (f x)) (p : positive) :
  forall x, P x -> P (iter_pos f p x).
Proof.
  induction p as [p IH|p IH|]; intros x Hx; cbn; auto.
Qed.

Lemma shr_1_nonneg (mrs : shr_record) :
  (0 <= shr_m mrs)%Z -> (0 <= shr_m (shr_1 mrs))%Z.
Proof.
  destruct mrs as [m r s]. cbn. destruct m as [|p|p]; [cbn; lia| |lia].
  intros _. destruct p; cbn; lia.
Qed.

Lemma shr_fexp_nonneg (m e : Z) (l : location) :
  (0 <= m)%Z ->
  (0 <= shr_m (fst (shr_fexp Number.prec Number.emax m e l)))%Z.
Proof.
  intros Hm. unfold shr_fexp, shr.
  assert (H0 : (0 <= shr_m (shr_record_of_loc m l))%Z)
    by (destruct l as [|[]]; exact Hm).
  destruct (_ - e)%Z; cbn [fst]; try exact H0.
  apply (iter_pos_keeps (fun x => (0 <= shr_m x)%Z)); [apply shr_1_nonneg | exact H0].
Qed.

Lemma round_nearest_even_nonneg (m : Z) (l : location) :
  (0 <= m)%Z -> (0 <= round_nearest_even m l)%Z.
Proof.
  intros Hm. unfold round_nearest_even.
  destruct l as [|[]]; try lia. destruct (Z.even m); lia.
Qed.

Lemma binary_round_aux_number (s : bool) (m e : Z) (l : location) :
  (0 <= m)%Z ->
  Number.isNaN (binary_round_aux Number.prec Number.emax s m e l) = false.
Proof.
  intros Hm. unfold binary_round_aux.
  pose proof (shr_fexp_nonneg m e l Hm) as H1.
  destruct (shr_fexp Number.prec Number.emax m e l) as [mrs' e'].
  cbn [fst] in H1.
  pose proof (shr_fexp_nonneg _ e' loc_Exact
                (round_nearest_even_nonneg _ (loc_of_shr_record mrs') H1)) as H2.
  destruct (shr_fexp Number.prec Number.emax _ e' loc_Exact) as [mrs'' e''].
  cbn [fst] in H2.
  destruct (shr_m mrs'') as [|p|p]; [reflexivity| |lia].
  destruct (e'' <=? _)%Z; reflexivity.
Qed.

(** Rounding a decimal never yields NaN. *)
Lemma of_decimal_number (sign : bool) (m e : Z) :
  Number.isNaN (Number.of_decimal sign m e) = false.
Proof.
  unfold Number.of_decimal.
  destruct (m * 10 ^ Z.max e 0)%Z as [|num|num]; try reflexivity.
  unfold SFdiv, SFdiv_core_binary.
  set (m' := match _ with Z0 => Zpos num | Zpos _ => _ | Zneg _ => _ end).
  assert (Hm' : (0 <= m')%Z).
  { subst m'. destruct (_ - _)%Z; try lia. apply Z.shiftl_nonneg. lia. }
  pose proof (Z.div_eucl_eq m' (Z.pos (Z.to_pos (10 ^ Z.max (- e) 0)))
                ltac:(lia)) as Heq.
  pose proof (Z.mod_pos_bound m' (Z.pos (Z.to_pos (10 ^ Z.max (- e) 0)))
                ltac:(lia)) as Hmod.
  unfold Z.modulo in Hmod.
  destruct (Z.div_eucl m' _) as [q r].
  apply binary_round_aux_number. nia.
Qed.

End Rounding.

Lemma parse_unsigned_number (sign : bool) (s : string) :
  Spec.starts_number s = true ->
  Number.isNaN (Number.parse_unsigned sign s) = false.
Proof.
  unfold Number.parse_unsigned. intros H.
  destruct (prefix "Infinity" s) eqn:Hinf; [reflexivity|].
  assert (Hd : Number.read_decimal s <> None).
  { unfold Number.read_decimal, Spec.starts_number in *.
    destruct s as [|c rest]; [discriminate|].
    destruct (App.is_digit c) eqn:Hc.
    - pose proof (read_digits_starts 0 0 c rest Hc) as Hn.
      destruct (Number.read_digits 0 0 (String c rest)) as [[i ni] r1].
      cbn [fst snd] in Hn.
      destruct (match r1 with
                | String "." r => Number.read_digits i 0 r
                | _ => (i, 0, r1)
                end) as [[m nf] r2].
      destruct ni; [lia|]. cbn. discriminate.
    - rewrite (read_digits_stops _ _ _ _ Hc).
      destruct (Ascii.eqb_spec c ".") as [->|Hdot].
      + destruct rest as [|d rest']; [discriminate|].
        pose proof (read_digits_starts 0 0 d rest' H) as Hn.
        destruct (Number.read_digits 0 0 (String d rest')) as [[m nf] r2].
        cbn [fst snd] in Hn. destruct nf; [lia|]. cbn. discriminate.
      + congruence. }
  destruct (Number.read_decimal s) as [[m e]|]; [apply of_decimal_number | congruence].
Qed.

(** parseFloat yields NaN exactly on the texts without a numeric
    prefix. *)
Lemma parseFloat_NaN (s : string) :
  Number.isNaN (Number.parseFloat (Some s)) = negb (Spec.numeric_prefix s).
Proof.
  unfold Number.parseFloat, Spec.numeric_prefix.
  assert (H : forall sign r,
             Number.isNaN (Number.parse_unsigned sign r)
             = negb (Spec.starts_number r)).
  { intros sign r. destruct (Spec.starts_number r) eqn:E.
    - now apply parse_unsigned_number.
    - now rewrite parse_unsigned_nothing. }
  destruct (Number.trim_start s) as [|c r]; [apply H|].
  destruct c as [[] [] [] [] [] [] [] []]; apply H.
Qed.

Lemma parseFloat_unparseable (k : string) (r : Download.row) :
  Spec.unparseable k r <->
  Number.isNaN (Number.parseFloat (Js.get k r)) = true.
Proof.
  unfold Spec.unparseable. destruct (Js.get k r) as [s|].
  - rewrite parseFloat_NaN. destruct (Spec.numeric_prefix s); cbn; split; congruence.
  - cbn. tauto.
Qed.

End ParseFloat.

(* ===================================================================== *)
(** ** The dataset resolver *)
(* ===================================================================== *)

Section Resolver.

(** Records whose source is not the key are passed over and leave no
    trace. *)
Lemma metadata_scan (next : Download.ctx -> Download.ctx) (key : string)
    (before rest : list Download.row) (fin : Streams.ending) (c : Download.ctx) :
  Download.source c = Some key ->
  Forall (fun x => Js.get "source" x <> Some key) before ->
  Streams.pipe_through2 Download.metadata_transform next next
    Download.metadata_parse_error (before ++ rest) fin c
  = Streams.pipe_through2 Download.metadata_transform next next
      Download.metadata_parse_error rest fin c.
Proof.
  intros Hk H. induction H as [|x before Hx _ IH]; [reflexivity|].
  cbn [app Streams.pipe_through2]. unfold Download.metadata_transform at 1.
  rewrite Hk. destruct (Js.get "source" x) as [s|]; cbn [Js.strict_eq].
  - destruct (String.eqb_spec s key) as [->|Hne]; [congruence | exact IH].
  - exact IH.
Qed.


End Resolver.

(* ===================================================================== *)
(** ** The conversion sink *)
(* ===================================================================== *)

Section Sink.

(** [_.omit] removes the listed properties and no other. *)
Lemma get_omit {V : Type} (k : string) (paths : list string) (o : Js.obj V) :
  Js.get k (Js.omit o paths)
  = if existsb (String.eqb k) paths then None else Js.get k o.
Proof.
  unfold Js.omit. induction o as [|[k' v] o IH]; cbn [filter Js.get fst].
  - now destruct (existsb _ paths).
  - destruct (existsb (String.eqb k') paths) eqn:E'; cbn [negb Js.get].
    + rewrite IH. destruct (String.eqb_spec k' k) as [->|_];
        [now rewrite E' | reflexivity].
    + destruct (String.eqb_spec k' k) as [->|_]; [now rewrite E' | exact IH].
Qed.

(** The two transforms and the ['finish'] listener, over the rows. *)
Lemma sink_rows (rows : list Download.row) :
  forall (c : Download.ctx) (n : nat),
    Download.ended (Download.res c) = false ->
    Download.headersSent (Download.res c) = true ->
    let st :=
      Streams.pipe_through2
        (fun record st =>
           (Download.write_point (Download.to_point record) st, Streams.Callback))
        (fun st => st)
        (fun st => (Download.end_
                      (Download.write (Download.Raw Download.geojson_footer) (fst st)),
                    snd st))
        (fun err st => (Download.geojson_parse_error err (fst st), snd st))
        rows Streams.Ends (c, n) in
    Download.res (fst st)
    = Download.mkRes (Download.status_code (Download.res c))
        (Download.content_type (Download.res c))
        (Download.disposition (Download.res c)) true
        (Download.written (Download.res c)
           ++ Spec.features_text (n =? 0)%nat (map Download.to_point rows)
           ++ [Download.Raw Download.geojson_footer]) true
    /\ Download.uncaught (fst st) = Download.uncaught c.
Proof.
  induction rows as [|r rows IH]; intros c n He Hh; cbn zeta.
  - cbn. unfold Download.write. rewrite He. cbn. split; reflexivity.
  - cbn [Streams.pipe_through2 Download.write_point map Spec.features_text].
    set (c1 := if (0 <? n)%nat then Download.write (Download.Raw ",") c else c).
    assert (H1 : Download.res c1
                 = Download.mkRes (Download.status_code (Download.res c))
                     (Download.content_type (Download.res c))
                     (Download.disposition (Download.res c)) true
                     (Download.written (Download.res c)
                        ++ (if (n =? 0)%nat then [] else [Download.Raw ","]))
                     false
                 /\ Download.uncaught c1 = Download.uncaught c).
    { subst c1. destruct n as [|n]; cbn [Nat.ltb Nat.leb Nat.eqb].
      - rewrite app_nil_r. destruct c as [? ? ? ? ? ? [] ? ? ? ? ? ?].
        cbn in *. subst. split; reflexivity.
      - unfold Download.write. rewrite He. cbn. split; reflexivity. }
    destruct H1 as [H1 U1].
    set (c2 := Download.write (Download.Stringify (Download.to_point r)) c1).
    assert (H2 : Download.res c2
                 = Download.mkRes (Download.status_code (Download.res c))
                     (Download.content_type (Download.res c))
                     (Download.disposition (Download.res c)) true
                     ((Download.written (Download.res c)
                         ++ (if (n =? 0)%nat then [] else [Download.Raw ","]))
                        ++ [Download.Stringify (Download.to_point r)])
                     false
                 /\ Download.uncaught c2 = Download.uncaught c).
    { subst c2. unfold Download.write. rewrite H1. cbn. split; [reflexivity | exact U1]. }
    destruct H2 as [H2 U2].
    destruct (IH c2 (S n)) as [R U]; [now rewrite H2 | now rewrite H2 |].
    cbn zeta in R, U. rewrite R, U, H2, U2. cbn [Download.status_code
      Download.content_type Download.disposition Download.written Nat.eqb].
    split; [|reflexivity]. f_equal. repeat rewrite <- app_assoc. reflexivity.
Qed.

(** The conversion sink, from the call of the handler to the end of the
    stream, on a response nothing was written to: the header, one point
    per record in the order of the records, the footer. *)
Lemma sink_writes (e : Download.entry) (c : Download.ctx) :
  Spec.untouched (Download.res c) ->
  Download.fin e = Streams.Ends ->
  let c' := Download.geojson_flow (fun c1 => c1) e (Download.respondWithGeojson e c) in
  Download.res c'
  = Download.mkRes 200 (Some "application/json")
      (Some "attachment; filename=data.geojson") true
      (Spec.feature_collection (map Download.to_point (Download.rows e))) true
  /\ Download.uncaught c' = Download.uncaught c.
Proof.
  intros (Hh & Hw & He) Hfin. cbn zeta.
  unfold Download.respondWithGeojson, Download.stage. rewrite Hh.
  unfold Download.geojson_flow. rewrite Hfin.
  match goal with
  | |- context [Streams.pipe_through2 _ _ _ _ _ _ (?c0, _)] =>
      destruct (sink_rows (Download.rows e) c0 0) as [R U]
  end.
  - cbn. unfold Download.write. cbn. now rewrite He.
  - cbn. unfold Download.write. cbn. now rewrite He.
  - cbn zeta in R, U. rewrite R, U. cbn. unfold Download.write. cbn.
    rewrite He, Hw. cbn. split; reflexivity.
Qed.

(** C7. The CSV text "LON,LAT,NAME / -122.1,37.5,Foo" is converted to a
    FeatureCollection of exactly one Point whose coordinates are the
    numbers -122.1 and 37.5 and whose properties are NAME: Foo.  In
    general the sink writes one Point per record, in order, whose
    coordinates are the parsed LON and LAT fields and whose properties
    are the record without LON and LAT. *)
Theorem conversion_sink_points :
  (let e := Examples.entry_of "data.csv" Examples.lon_lat_name in
   let c := Download.request "/download/us/ca/marin" (Some "geojson") in
   exists x y,
     Download.rows e = [[("LON", "-122.1"); ("LAT", "37.5"); ("NAME", "Foo")]]
     /\ Download.written
          (Download.res (Download.geojson_flow (fun c1 => c1) e
                           (Download.respondWithGeojson e c)))
        = Spec.feature_collection
            [Download.mkPoint (Download.mkGeometry "Point" [x; y])
                              [("NAME", "Foo")]]
     /\ Spec.nearest_binary64 (-1221) 10 x
     /\ Spec.nearest_binary64 375 10 y)
  /\ (forall e c,
        Spec.untouched (Download.res c) -> Download.fin e = Streams.Ends ->
        Download.written
          (Download.res (Download.geojson_flow (fun c1 => c1) e
                           (Download.respondWithGeojson e c)))
        = Spec.feature_collection (map Download.to_point (Download.rows e)))
  /\ (forall r,
        Download.geometry_type (Download.geometry_of (Download.to_point r)) = "Point"
        /\ Download.coordinates (Download.geometry_of (Download.to_point r))
           = [Number.parseFloat (Js.get "LON" r); Number.parseFloat (Js.get "LAT" r)]
        /\ forall k,
             Js.get k (Download.properties (Download.to_point r))
             = if (k =? "LON") || (k =? "LAT") then None else Js.get k r).
Proof.
  split; [|split].
  - cbv zeta.
    exists (S754_finite true 8592023664092774 (-46)),
           (S754_finite false 5277655813324800 (-47)).
    split; [reflexivity|]. split; [reflexivity|].
    split; cbn; lia.
  - intros e c Hc Hfin. destruct (sink_writes e c Hc Hfin) as [R _].
    cbn zeta in R. now rewrite R.
  - intros r. split; [reflexivity|]. split; [reflexivity|].
    intros k. cbn [Download.to_point Download.properties].
    rewrite get_omit. cbn [existsb]. now rewrite orb_false_r.
Qed.


End Sink.

(* ===================================================================== *)
(** ** Temporary files *)
(* ===================================================================== *)

Section Temp.

Lemma disk_send (s : Z) (t : string) (x : Download.chunk) (c : Download.ctx) :
  Download.disk (Download.send s t x c) = Download.disk c.
Proof.
  unfold Download.send, Download.stage.
  destruct (Download.headersSent (Download.res c)); [reflexivity|].
  unfold Download.end_, Download.write. cbn.
  destruct (Download.ended (Download.res c)); reflexivity.
Qed.

(** When the staged bytes are no zip file, getData answers and stops:
    nothing that follows it runs, and the file it staged stays. *)
Lemma getData_bad_archive (w : Download.world) (next : Download.ctx -> Download.ctx)
    (c : Download.ctx) (ctype : option string) (body : string) (err : Streams.error) :
  Js.falsy (Download.datafile c) = false ->
  Download.data w = Download.Response 200 ctype body (Download.NotAZip err) ->
  Download.disk (Download.getData w next c) = Download.disk c ++ [Download.tmp_path w].
Proof.
  intros Hd Hw. unfold Download.getData. rewrite Hd, Hw. cbn [Z.eqb Pos.eqb negb].
  now rewrite disk_send.
Qed.

(** Once the headers are sent, cleanupTemp removes nothing, and it never
    calls what follows it. *)
Lemma cleanupTemp_after_headers (next : Download.ctx -> Download.ctx)
    (c : Download.ctx) :
  Download.headersSent (Download.res c) = true ->
  Download.cleanupTemp next c = c.
Proof. intros H. unfold Download.cleanupTemp. now rewrite H. Qed.

(** It removes the files when it runs before anything is written. *)
Lemma cleanupTemp_before_headers (next : Download.ctx -> Download.ctx)
    (c : Download.ctx) :
  Download.headersSent (Download.res c) = false ->
  Download.disk (Download.cleanupTemp next c) = [].
Proof. intros H. unfold Download.cleanupTemp. now rewrite H. Qed.

(** C5, on the code: the request for a dataset whose archive URL answers
    200 with bytes that are no zip file is answered 400, the response is
    complete, and the file staged for it is still on disk: getData never
    calls next() on this path, so cleanupTemp does not run. *)
Theorem staged_file_is_left_on_disk :
  let c := Download.get_download Examples.bad_archive_world
             (Download.request "/download/us/ca/marin" None) in
  Download.datafile c = Some "http://example.com/marin-1.zip"
  /\ Download.status_code (Download.res c) = 400%Z
  /\ Download.ended (Download.res c) = true
  /\ Download.disk c = [Download.tmp_path Examples.bad_archive_world].
Proof. cbv zeta. repeat split. Qed.

(** A download that is served with the content of the entry delivered
    before the end of the archive is announced: cleanupTemp runs twice,
    each time after the headers were sent, and the file stays. *)
Lemma served_file_is_left_on_disk :
  let c := Download.get_download
             (Examples.good_archive_world Examples.lon_lat_name)
             (Download.request "/download/us/ca/marin" (Some "csv")) in
  Download.status_code (Download.res c) = 200%Z
  /\ Download.written (Download.res c) = [Download.Raw Examples.lon_lat_name]
  /\ Download.ended (Download.res c) = true
  /\ Download.disk c = ["/tmp/d-2.zip"].
Proof. cbv zeta. repeat split. Qed.

End Temp.

(* ===================================================================== *)
(** ** The archive scanner of the download endpoint *)
(* ===================================================================== *)

Section DownloadScanner.

(** getData guards the handler with [csvFileFound]: when the read stream
    of the first CSV entry is open before the next entry is announced,
    the second CSV entry is skipped. *)
Lemma getData_hands_over_first_csv :
  let c := Download.get_download Examples.two_csv_world
             (Download.request "/download/us/ca/marin" (Some "geojson")) in
  Download.handled c = ["a.csv"]
  /\ Download.written (Download.res c)
     = Spec.feature_collection
         (map Download.to_point
              (Download.rows (Examples.entry_of "a.csv" Examples.lon_lat_name))).
Proof. cbv zeta. split; reflexivity. Qed.

End DownloadScanner.

(* ===================================================================== *)
(** ** Instances *)
(* ===================================================================== *)

Section Instances.

(** C2 at a CSV source of twelve rows: ten results. *)
Lemma sample_length_is_min_witness :
  exists j l,
    App.res (App.get_fields Examples.twelve_world
               (App.request (Examples.only_source "http://example.com/data.csv")))
    = Some (mkResponse 200 (Sample j))
    /\ sj_results j = Some l
    /\ l = firstn 10 Examples.twelve
    /\ List.length l = Nat.min 10 (List.length Examples.twelve).
Proof.
  apply (sample_length_is_min Examples.twelve_world
           (Examples.only_source "http://example.com/data.csv") Examples.twelve).
  left. split; [repeat split | exists EmptyString; reflexivity].
Defined.



(** C8 at a CSV source whose connection is refused. *)
Lemma failure_reports_witness :
  App.res (App.get_fields Examples.refused_world
             (App.request (Examples.only_source "http://example.com/data.csv")))
  = Some (mkResponse 400
            (Text "Error retrieving file http://example.com/data.csv: ECONNREFUSED"))
  /\ Spec.embeds "http://example.com/data.csv"
       "Error retrieving file http://example.com/data.csv: ECONNREFUSED".
Proof.
  apply (failure_reports Examples.refused_world
           (Examples.only_source "http://example.com/data.csv")
           "http://example.com/data.csv" Examples.refused _ eq_refl).
  left. repeat split.
Defined.


(** The two rows of that example, converted. *)
Lemma bad_coordinates_points :
  map (fun r => Download.coordinates (Download.geometry_of (Download.to_point r)))
      (Download.rows (Examples.entry_of "data.csv" Examples.bad_coordinates))
  = [ [Number.NaN; S754_finite false 5277655813324800 (-47)];
      [S754_finite true 8592023664092774 (-46); Number.NaN] ].
Proof. reflexivity. Qed.

End Instances.
